(** * GoldPricePredictor-GradioApp: the two prediction scripts

    A shallow embedding of [gradioReg_app.py] and [Comparaison_app.py].
    Both scripts load pickled regression models when the module is
    executed, and expose one function each that frames four numbers as a
    one-row [pandas.DataFrame], asks the loaded model(s) for a prediction
    and converts the first entry of the answer to a Python float.

    The models are objects the scripts do not define.  They are embedded as
    opaque objects with a private memory and one method, [predict]; what
    the scripts do with them (the frame they build, the order of the calls,
    how an exception travels) is embedded from the source. *)

From Stdlib Require Import ZArith List String Bool Lia Permutation.
From Stdlib Require Import Floats.SpecFloat.
From Stdlib Require Import Decimal DecimalString.
Import ListNotations.
Open Scope string_scope.
Open Scope list_scope.

(** ** Numbers *)

(** A Python [float] and a NumPy [float64] are IEEE-754 binary64 values. *)
Definition pyfloat : Type := spec_float.

Definition prec : Z := 53.
Definition emax : Z := 1024.

Definition fadd : pyfloat -> pyfloat -> pyfloat := SFadd prec emax.
Definition fmul : pyfloat -> pyfloat -> pyfloat := SFmul prec emax.


(** [float(x)] applied to a [numpy.float64]: the same binary64 value. *)
Definition float (x : spec_float) : pyfloat := x.

(** Integers as binary64 values, for examples. *)
Definition of_Z (z : Z) : pyfloat := binary_normalize prec emax z 0 false.

(** ** Exceptions and results *)

Inductive exn : Type :=
| FileNotFoundError (path : string)
| UnpicklingError (path : string)
| ValueError (msg : string)
| IndexError (msg : string)
| ModelError (msg : string).

Inductive result (A : Type) : Type :=
| Ok (a : A)
| Raise (e : exn).
Arguments Ok {A} a.
Arguments Raise {A} e.

Definition is_ok {A} (r : result A) : bool :=
  match r with Ok _ => true | Raise _ => false end.

(** ** Frames and arrays *)

(** A [pandas.DataFrame] with float columns: the column labels in order and
    the rows, each as wide as the labels. *)
Record DataFrame : Type := mkDataFrame {
  columns : list string;
  values : list (list pyfloat)
}.

(** A one-dimensional [numpy.ndarray] of [float64]. *)
Definition ndarray : Type := list pyfloat.

(** [arr[i]] for a non-negative index: [IndexError] out of bounds. *)
Definition getitem (arr : ndarray) (i : nat) : result pyfloat :=
  match nth_error arr i with
  | Some x => Ok x
  | None => Raise (IndexError "index out of bounds")
  end.

(** [pd.DataFrame(data, columns=columns)] for a list of rows: pandas
    refuses rows whose width differs from the number of labels. *)
Definition DataFrame_new (data : list (list pyfloat)) (cols : list string)
  : result DataFrame :=
  if forallb (fun row => Nat.eqb (List.length row) (List.length cols)) data
  then Ok (mkDataFrame cols data)
  else Raise (ValueError "columns passed do not match the data").

(** The value a row of the frame holds under a label (first match), as
    [df[label][r]] reads it. *)
Fixpoint assoc (label : string) (cols : list string) (row : list pyfloat)
  : option pyfloat :=
  match cols, row with
  | c :: cols', x :: row' =>
      if String.eqb label c then Some x else assoc label cols' row'
  | _, _ => None
  end.

Definition loc (df : DataFrame) (r : nat) (label : string) : option pyfloat :=
  match nth_error (values df) r with
  | Some row => assoc label (columns df) row
  | None => None
  end.

(** ** Model artifacts *)

(** A loaded model: an object with a private memory and a [predict] method
    that takes a frame and answers with an array or raises, possibly
    changing the memory. *)
Record Artifact : Type := mkArtifact {
  art_mem : Type;
  art_state : art_mem;
  art_predict : art_mem -> DataFrame -> result ndarray * art_mem
}.

(** [a.predict(X)]: the answer and the object afterwards. *)
Definition Artifact_predict (a : Artifact) (X : DataFrame)
  : result ndarray * Artifact :=
  let (r, s') := art_predict a (art_state a) X in
  (r, mkArtifact (art_mem a) s' (art_predict a)).

(** What the object answers to [predict(X)] in its present state. *)
Definition answer (a : Artifact) (X : DataFrame) : result ndarray :=
  fst (art_predict a (art_state a) X).

(** A model whose [predict] never writes to its memory. *)
Definition read_only (a : Artifact) : Prop :=
  forall (s : art_mem a) (X : DataFrame), snd (art_predict a s X) = s.

(** ** The store of model files *)

Inductive file : Type :=
| Pickle (a : Artifact)
| Garbage.

Definition filesystem : Type := string -> option file.

(** [joblib.load(filename)]. *)
Definition joblib_load (fs : filesystem) (filename : string)
  : result Artifact :=
  match fs filename with
  | Some (Pickle a) => Ok a
  | Some Garbage => Raise (UnpicklingError filename)
  | None => Raise (FileNotFoundError filename)
  end.

(** The spec's [ArtifactLoadError]: what [joblib.load] raises. *)
Definition ArtifactLoadError (e : exn) : bool :=
  match e with
  | FileNotFoundError _ | UnpicklingError _ => true
  | _ => false
  end.

(** ** Running a module: globals, a log of calls, exceptions *)

Inductive event : Type :=
| NewDataFrame (df : DataFrame)
| Predict (model : string) (X : DataFrame).

Record World (G : Type) : Type := mkWorld {
  globals : G;
  trace : list event
}.
Arguments mkWorld {G} globals trace.
Arguments globals {G} w.
Arguments trace {G} w.

Definition M (G A : Type) : Type := World G -> result A * World G.

Definition ret {G A} (a : A) : M G A := fun w => (Ok a, w).

Definition bind {G A B} (m : M G A) (k : A -> M G B) : M G B :=
  fun w =>
    match m w with
    | (Ok a, w') => k a w'
    | (Raise e, w') => (Raise e, w')
    end.

Declare Scope py_scope.
Delimit Scope py_scope with py.
Notation "x <- m ;; k" := (bind m (fun x => k))
  (at level 100, m at next level, right associativity) : py_scope.

(** A pure computation that may raise. *)
Definition lift {G A} (r : result A) : M G A := fun w => (r, w).

Definition log {G} (ev : event) : M G unit :=
  fun w => (Ok tt, mkWorld (globals w) (trace w ++ [ev])).

(** A module-level name bound to a model. *)
Record global_var (G : Type) : Type := mkVar {
  var_name : string;
  var_get : G -> Artifact;
  var_set : Artifact -> G -> G
}.
Arguments mkVar {G} var_name var_get var_set.
Arguments var_name {G} g.
Arguments var_get {G} g.
Arguments var_set {G} g.

(** [pd.DataFrame(data, columns=cols)] as a step of the program. *)
Definition pd_DataFrame {G} (data : list (list pyfloat)) (cols : list string)
  : M G DataFrame :=
  (df <- lift (DataFrame_new data cols) ;;
   _ <- log (NewDataFrame df) ;;
   ret df)%py.

(** [v.predict(X)] for a global [v]: the object bound to [v] is called and
    keeps whatever it did to itself. *)
Definition call_predict {G} (v : global_var G) (X : DataFrame) : M G ndarray :=
  fun w =>
    let (r, a') := Artifact_predict (var_get v (globals w)) X in
    (r, mkWorld (var_set v a' (globals w))
                (trace w ++ [Predict (var_name v) X])).

(** ** A started script *)

(** A script either died while its module was executed, or reached
    [main()] and serves clicks on its button with the globals it loaded. *)
Inductive process (G : Type) : Type :=
| Crashed (e : exn)
| Serving (w : World G).
Arguments Crashed {G} e.
Arguments Serving {G} w.

(** The four numbers of the form, in the order of the [inputs] list. *)
Definition request : Type := (pyfloat * pyfloat * pyfloat * pyfloat)%type.

Section Clicks.
Context {G R : Type}.
Variable fn : pyfloat -> pyfloat -> pyfloat -> pyfloat -> M G R.

(** One click: [fn] is called with the four widget values. *)
Definition click (w : World G) (req : request) : result R * World G :=
  let '(SPX, USO, SLV, EURUSD) := req in fn SPX USO SLV EURUSD w.

(** The world after a sequence of earlier clicks, whatever they returned. *)
Fixpoint after (history : list request) (w : World G) : World G :=
  match history with
  | [] => w
  | req :: rest => after rest (snd (click w req))
  end.

(** What a process answers to a click: nothing when it never started.
    An exception of the function is the answer to that click, and the
    script goes on serving. *)
Definition respond (p : process G) (req : request)
  : option (result R) * process G :=
  match p with
  | Crashed e => (None, Crashed e)
  | Serving w => let (r, w') := click w req in (Some r, Serving w')
  end.

Fixpoint responses (p : process G) (reqs : list request)
  : list (option (result R)) :=
  match reqs with
  | [] => []
  | req :: rest =>
      let (r, p') := respond p req in r :: responses p' rest
  end.
End Clicks.

(** ** gradioReg_app.py *)

Module GradioReg.

Record Globals : Type := mkGlobals { linear : Artifact }.

Definition model_filename : string := "linear_regression_model.pkl".

Definition linear_var : global_var Globals :=
  mkVar "linear" linear (fun a _ => mkGlobals a).

Definition predict_gld_price (SPX USO SLV EURUSD : pyfloat)
  : M Globals pyfloat :=
  (features_df <- pd_DataFrame [[SPX; USO; SLV; EURUSD]]
                               ["SPX"; "USO"; "SLV"; "EUR/USD"] ;;
   predicted_price <- call_predict linear_var features_df ;;
   p0 <- lift (getitem predicted_price 0) ;;
   ret (float p0))%py.

(** The module body up to the definitions: the model is loaded. *)
Definition exec_module (fs : filesystem) : result Globals :=
  match joblib_load fs model_filename with
  | Ok a => Ok (mkGlobals a)
  | Raise e => Raise e
  end.

(** [python gradioReg_app.py]: [main()] runs after the module body. *)
Definition start (fs : filesystem) : process Globals :=
  match exec_module fs with
  | Ok g => Serving (mkWorld g [])
  | Raise e => Crashed e
  end.

End GradioReg.

(** ** Comparaison_app.py *)

Module Comparaison.

Record Globals : Type := mkGlobals {
  linear_regressor : Artifact;
  forest_regressor : Artifact
}.

Definition linear_model_filename : string := "linear_regression_model.pkl".
Definition forest_model_filename : string := "forest_regressor_model.pkl".

Definition linear_var : global_var Globals :=
  mkVar "linear_regressor" linear_regressor
        (fun a g => mkGlobals a (forest_regressor g)).

Definition forest_var : global_var Globals :=
  mkVar "forest_regressor" forest_regressor
        (fun a g => mkGlobals (linear_regressor g) a).

Definition compare_models (SPX USO SLV EURUSD : pyfloat)
  : M Globals (pyfloat * pyfloat) :=
  (features_df <- pd_DataFrame [[SPX; USO; SLV; EURUSD]]
                               ["SPX"; "USO"; "SLV"; "EUR/USD"] ;;
   linear_predicted_price <- call_predict linear_var features_df ;;
   forest_predicted_price <- call_predict forest_var features_df ;;
   l0 <- lift (getitem linear_predicted_price 0) ;;
   f0 <- lift (getitem forest_predicted_price 0) ;;
   ret (float l0, float f0))%py.

(** The module body: the linear model is loaded, then the forest. *)
Definition exec_module (fs : filesystem) : result Globals :=
  match joblib_load fs linear_model_filename with
  | Ok l =>
      match joblib_load fs forest_model_filename with
      | Ok f => Ok (mkGlobals l f)
      | Raise e => Raise e
      end
  | Raise e => Raise e
  end.

Definition start (fs : filesystem) : process Globals :=
  match exec_module fs with
  | Ok g => Serving (mkWorld g [])
  | Raise e => Crashed e
  end.

End Comparaison.

(** ** The frame both functions build *)

Definition feature_names : list string := ["SPX"; "USO"; "SLV"; "EUR/USD"].

Definition features_df (SPX USO SLV EURUSD : pyfloat) : DataFrame :=
  mkDataFrame feature_names [[SPX; USO; SLV; EURUSD]].

(** ** Some models, for examples *)

(** A model without memory, given by its prediction function. *)
Definition stateless (f : DataFrame -> result ndarray) : Artifact :=
  mkArtifact unit tt (fun s X => (f X, s)).

(** A model that answers every row with the same number. *)
Definition DummyRegressor (c : pyfloat) : Artifact :=
  stateless (fun X => Ok (map (fun _ => c) (values X))).

(** A model whose [predict] always raises. *)
Definition Broken (e : exn) : Artifact :=
  stateless (fun _ => Raise e).

Fixpoint dot (coef row : list pyfloat) : pyfloat :=
  match coef, row with
  | c :: coef', x :: row' => fadd (fmul c x) (dot coef' row')
  | _, _ => S754_zero false
  end.

(** A linear model that reads each row by position: the row times the
    coefficients, plus the intercept. *)
Definition LinearRegression (coef : list pyfloat) (intercept : pyfloat)
  : Artifact :=
  stateless (fun X => Ok (map (fun row => fadd (dot coef row) intercept)
                              (values X))).

(** A linear model that reads each row by label; a label the frame lacks
    is an error. *)
Fixpoint dot_named (coef : list (string * pyfloat)) (cols : list string)
  (row : list pyfloat) : option pyfloat :=
  match coef with
  | [] => Some (S754_zero false)
  | (label, c) :: coef' =>
      match assoc label cols row, dot_named coef' cols row with
      | Some x, Some acc => Some (fadd (fmul c x) acc)
      | _, _ => None
      end
  end.

Fixpoint predict_rows (f : nat -> option pyfloat) (r n : nat)
  : option ndarray :=
  match n with
  | O => Some []
  | S n' =>
      match f r, predict_rows f (S r) n' with
      | Some y, Some ys => Some (y :: ys)
      | _, _ => None
      end
  end.

Definition LabelledRegression (coef : list (string * pyfloat))
  (intercept : pyfloat) : Artifact :=
  stateless (fun X =>
    match predict_rows
            (fun r => match nth_error (values X) r with
                      | Some row =>
                          match dot_named coef (columns X) row with
                          | Some d => Some (fadd d intercept)
                          | None => None
                          end
                      | None => None
                      end)
            0 (List.length (values X)) with
    | Some ys => Ok ys
    | None => Raise (ValueError "feature names do not match")
    end).

(** A one-split tree on the feature at position [j]. *)
Record Stump : Type := mkStump {
  feature : nat;
  threshold : pyfloat;
  left_value : pyfloat;
  right_value : pyfloat
}.

Definition Stump_predict (t : Stump) (row : list pyfloat) : pyfloat :=
  if SFleb (nth (feature t) row S754_nan) (threshold t)
  then left_value t else right_value t.

(** A forest of one tree. *)
Definition ForestRegressor (t : Stump) : Artifact :=
  stateless (fun X => Ok (map (Stump_predict t) (values X))).

(** A model that remembers how many times it was asked and answers with
    that count. *)
Definition Counter : Artifact :=
  mkArtifact Z 0%Z (fun n X => (Ok (map (fun _ => of_Z n) (values X)), (n + 1)%Z)).

(** A model that answers with an empty array. *)
Definition Silent : Artifact := stateless (fun _ => Ok []).

Definition no_files : filesystem := fun _ => None.

Definition with_file (fs : filesystem) (path : string) (f : file)
  : filesystem :=
  fun p => if String.eqb p path then Some f else fs p.

(** Worlds for the examples. *)
Definition demo_linear : Artifact :=
  LinearRegression [of_Z 1; of_Z 2; of_Z 3; of_Z 4] (of_Z 10).

Definition demo_forest : Artifact :=
  ForestRegressor (mkStump 0 (of_Z 5) (of_Z 100) (of_Z 200)).

Definition demo_predictor : World GradioReg.Globals :=
  mkWorld (GradioReg.mkGlobals demo_linear) [].

Definition demo_comparator : World Comparaison.Globals :=
  mkWorld (Comparaison.mkGlobals demo_linear demo_forest) [].

Definition ones : request := (of_Z 1, of_Z 1, of_Z 1, of_Z 1).

(** The four inputs 1, 2, 3, 4 with USO assembled before SPX. *)
Definition uso_first : list (string * pyfloat) :=
  [("USO", of_Z 2); ("SPX", of_Z 1); ("SLV", of_Z 3); ("EUR/USD", of_Z 4)].

Definition labelled_linear : Artifact :=
  LabelledRegression
    [("SPX", of_Z 1); ("USO", of_Z 2); ("SLV", of_Z 3); ("EUR/USD", of_Z 4)]
    (of_Z 10).

Definition labelled_other : Artifact :=
  LabelledRegression [("SLV", of_Z 7); ("SPX", of_Z 2)] (of_Z 0).

(** A store that holds both model files, and one without the forest. *)
Definition linear_only : filesystem :=
  with_file no_files "linear_regression_model.pkl" (Pickle demo_linear).

Definition demo_files : filesystem :=
  with_file linear_only "forest_regressor_model.pkl" (Pickle demo_forest).

(** ** Vocabulary of the properties *)

(** A file that is missing, or that does not unpickle. *)
Definition unreadable (fs : filesystem) (path : string) : bool :=
  match fs path with
  | Some (Pickle _) => false
  | Some Garbage | None => true
  end.





(** Two frames that bind the same value to every label in every row. *)
Definition same_binding (X Y : DataFrame) : Prop :=
  List.length (values X) = List.length (values Y) /\
  forall (r : nat) (label : string), loc X r label = loc Y r label.

(** A model that reads its input by label only. *)
Definition by_name (a : Artifact) : Prop :=
  forall (s : art_mem a) (X Y : DataFrame),
    same_binding X Y -> fst (art_predict a s X) = fst (art_predict a s Y).

(** The four inputs with the labels the source gives them, in the order
    of the source. *)
Definition named_inputs (SPX USO SLV EURUSD : pyfloat)
  : list (string * pyfloat) :=
  [("SPX", SPX); ("USO", USO); ("SLV", SLV); ("EUR/USD", EURUSD)].

(** The spec's feature-order property speaks of assembling the four named
    inputs in another order.  The source has one order only; these are the
    two functions with the frame assembled from labelled values in a given
    order, to be compared with the functions of the source. *)
Module Reordered.

Definition predict_gld_price (fields : list (string * pyfloat))
  : M GradioReg.Globals pyfloat :=
  (features_df <- pd_DataFrame [map snd fields] (map fst fields) ;;
   predicted_price <- call_predict GradioReg.linear_var features_df ;;
   p0 <- lift (getitem predicted_price 0) ;;
   ret (float p0))%py.

Definition compare_models (fields : list (string * pyfloat))
  : M Comparaison.Globals (pyfloat * pyfloat) :=
  (features_df <- pd_DataFrame [map snd fields] (map fst fields) ;;
   linear_predicted_price <-
     call_predict Comparaison.linear_var features_df ;;
   forest_predicted_price <-
     call_predict Comparaison.forest_var features_df ;;
   l0 <- lift (getitem linear_predicted_price 0) ;;
   f0 <- lift (getitem forest_predicted_price 0) ;;
   ret (float l0, float f0))%py.

End Reordered.

(** ** Counting in the log *)

(** How many frames the log shows built. *)
Fixpoint frames_built (tr : list event) : nat :=
  match tr with
  | [] => 0
  | NewDataFrame _ :: rest => S (frames_built rest)
  | Predict _ _ :: rest => frames_built rest
  end.

(** How many times the log shows [predict] called on the global [name]. *)
Fixpoint calls_to (name : string) (tr : list event) : nat :=
  match tr with
  | [] => 0
  | NewDataFrame _ :: rest => calls_to name rest
  | Predict model _ :: rest =>
      if String.eqb model name then S (calls_to name rest)
      else calls_to name rest
  end.

(** * The gradio package shipped with the scripts *)

(** The exceptions the modelled gradio code raises itself, and whatever a
    callback may raise. *)
Inductive gr_exn : Type :=
| GrValueError (msg : string)
| GrTypeError (msg : string)
| GrRenderError (msg : string)
| GrException (msg : string).

Inductive res (A : Type) : Type :=
| Returned (a : A)
| Raised (e : gr_exn).
Arguments Returned {A} a.
Arguments Raised {A} e.

(** [str(n)] for a non-negative [int]. *)
Definition str_of_nat (n : nat) : string :=
  NilEmpty.string_of_uint (Nat.to_uint n).

(** [enumerate(l)], counting from [start]. *)
Fixpoint enumerate_from {A : Type} (start : nat) (l : list A)
  : list (nat * A) :=
  match l with
  | [] => []
  | x :: rest => (start, x) :: enumerate_from (S start) rest
  end.

Definition enumerate {A : Type} (l : list A) : list (nat * A) :=
  enumerate_from 0 l.

(** [zip(l1, l2)] is [combine]: it stops with the shorter list. *)
Definition zip {A B : Type} (l1 : list A) (l2 : list B) : list (A * B) :=
  combine l1 l2.

(** [l[i] = x] for an index in range. *)
Fixpoint set_nth {A : Type} (l : list A) (i : nat) (x : A) : list A :=
  match l, i with
  | [], _ => []
  | _ :: rest, O => x :: rest
  | y :: rest, S i' => y :: set_nth rest i' x
  end.

(** ** interface.py: [Interface] *)

Module Interface.

Inductive InterfaceTypes : Type :=
| STANDARD
| INPUT_ONLY
| OUTPUT_ONLY
| UNIFIED.

Definition InterfaceTypes_eqb (a b : InterfaceTypes) : bool :=
  match a, b with
  | STANDARD, STANDARD | INPUT_ONLY, INPUT_ONLY
  | OUTPUT_ONLY, OUTPUT_ONLY | UNIFIED, UNIFIED => true
  | _, _ => false
  end.

(** An element of [inputs] or [outputs]: a string shortcut, a component,
    or something else. *)
Inductive item (C : Type) : Type :=
| Shortcut (s : string)
| Instance (c : C)
| Junk.
Arguments Shortcut {C} s.
Arguments Instance {C} c.
Arguments Junk {C}.

(** The value passed as [inputs], [outputs] or [additional_inputs]. *)
Inductive io_arg (C : Type) : Type :=
| ArgNone
| ArgStr (s : string)
| ArgComponent (c : C)
| ArgList (l : list (item C))
| ArgOther.
Arguments ArgNone {C}.
Arguments ArgStr {C} s.
Arguments ArgComponent {C} c.
Arguments ArgList {C} l.
Arguments ArgOther {C}.

(** [x is None or x == []]. *)
Definition none_or_empty {C} (x : io_arg C) : bool :=
  match x with
  | ArgNone | ArgList [] => true
  | _ => false
  end.

(** [isinstance(x, (str, list, Component))]. *)
Definition str_list_or_Component {C} (x : io_arg C) : bool :=
  match x with
  | ArgStr _ | ArgList _ | ArgComponent _ => true
  | ArgNone | ArgOther => false
  end.

(** [x] if it is a list, [[x]] otherwise. *)
Definition as_list {C} (x : io_arg C) : list (item C) :=
  match x with
  | ArgList l => l
  | ArgStr s => [Shortcut s]
  | ArgComponent c => [Instance c]
  | ArgNone | ArgOther => [Junk]
  end.

(** [__init__], from [self.interface_type = InterfaceTypes.STANDARD] to
    the three lists: the kind of interface and the arguments as lists. *)
Definition normalize_io {C} (inputs outputs additional_inputs : io_arg C)
  : res (InterfaceTypes * list (item C) * list (item C) * list (item C)) :=
  if none_or_empty inputs && none_or_empty outputs then
    Raised (GrValueError "Must provide at least one of `inputs` or `outputs`")
  else
    let '(interface_type, inputs, outputs) :=
      if none_or_empty outputs then (INPUT_ONLY, inputs, ArgList [])
      else if none_or_empty inputs then (OUTPUT_ONLY, ArgList [], outputs)
      else (STANDARD, inputs, outputs) in
    let additional_inputs :=
      match additional_inputs with
      | ArgNone => ArgList []
      | other => other
      end in
    if negb (str_list_or_Component inputs) then
      Raised (GrTypeError "inputs must be a string, list, or Component")
    else if negb (str_list_or_Component outputs) then
      Raised (GrTypeError "outputs must be a string, list, or Component")
    else
      Returned (interface_type, as_list inputs, as_list outputs,
                as_list additional_inputs).

Section State.
Context {C : Type}.
(** [isinstance(c, State)]. *)
Variable is_State : C -> bool.
(** [State(value=utils.get_default_args(fn)[idx])]. *)
Variable State_of_default : nat -> res C.

(** [i == "state" or isinstance(i, State)]. *)
Definition is_state_item (i : item C) : bool :=
  match i with
  | Shortcut s => String.eqb s "state"
  | Instance c => is_State c
  | Junk => false
  end.

Definition state_indexes (l : list (item C)) : list nat :=
  map fst (filter (fun p => is_state_item (snd p)) (enumerate l)).

(** [__init__], the state input and output: none, or one of each, which
    become one shared component. *)
Definition link_state (inputs outputs : list (item C))
  : res (list (item C) * list (item C)) :=
  match state_indexes inputs, state_indexes outputs with
  | [], [] => Returned (inputs, outputs)
  | [state_input_index], [state_output_index] =>
      match nth_error inputs state_input_index with
      | Some i =>
          let state_variable :=
            match i with
            | Shortcut s =>
                if String.eqb s "state" then
                  match State_of_default state_input_index with
                  | Returned c => Returned (Instance c)
                  | Raised e => Raised e
                  end
                else Returned i
            | _ => Returned i
            end in
          match state_variable with
          | Returned state_variable =>
              Returned (set_nth inputs state_input_index state_variable,
                        set_nth outputs state_output_index state_variable)
          | Raised e => Raised e
          end
      | None => Raised (GrException "IndexError")
      end
  | _, _ =>
      Raised (GrValueError
        "If using 'state', there must be exactly one state input and one state output.")
  end.
End State.

(** The value passed as [allow_flagging]. *)
Inductive flagging_arg : Type :=
| FlagNone
| FlagBool (b : bool)
| FlagStr (s : string)
| FlagOther.

(** [__init__], [allow_flagging]: the parameter, else the environment
    variable GRADIO_ALLOW_FLAGGING, else "manual".  The boolean says
    whether a warning was issued. *)
Definition normalize_allow_flagging (allow_flagging : flagging_arg)
  (GRADIO_ALLOW_FLAGGING : option string) : res (string * bool) :=
  let allow_flagging :=
    match allow_flagging with
    | FlagNone =>
        FlagStr (match GRADIO_ALLOW_FLAGGING with
                 | Some v => v
                 | None => "manual"
                 end)
    | other => other
    end in
  match allow_flagging with
  | FlagBool true => Returned ("manual", true)
  | FlagBool false => Returned ("never", true)
  | FlagStr s =>
      if String.eqb s "manual" then Returned ("manual", false)
      else if String.eqb s "never" then Returned ("never", false)
      else if String.eqb s "auto" then Returned ("auto", false)
      else Raised (GrValueError "Invalid value for `allow_flagging` parameter.")
  | FlagNone | FlagOther =>
      Raised (GrValueError "Invalid value for `allow_flagging` parameter.")
  end.

(** The value of a flagging option: a string, or something else. *)
Inductive option_value : Type :=
| StrValue (s : string)
| NotStr.

(** An element of the [flagging_options] list. *)
Inductive option_item : Type :=
| OptStr (x : string)
| OptTuple (label : string) (value : option_value)
| OptJunk.

Inductive options_arg : Type :=
| OptionsNone
| OptionsList (l : list option_item)
| OptionsOther.

Definition is_OptStr (x : option_item) : bool :=
  match x with OptStr _ => true | _ => false end.

Definition is_OptTuple (x : option_item) : bool :=
  match x with OptTuple _ _ => true | _ => false end.

(** [__init__], [flagging_options]: the (label, value) pairs kept in
    [self.flagging_options]. *)
Definition normalize_flagging_options (flagging_options : options_arg)
  : res (list (string * option_value)) :=
  match flagging_options with
  | OptionsNone => Returned [("Flag", StrValue "")]
  | OptionsOther =>
      Raised (GrValueError
        "flagging_options must be a list of strings or list of (string, string) tuples.")
  | OptionsList l =>
      if forallb is_OptStr l then
        Returned (flat_map (fun x => match x with
                                     | OptStr x => [(("Flag as " ++ x)%string, StrValue x)]
                                     | _ => []
                                     end) l)
      else if forallb is_OptTuple l then
        Returned (flat_map (fun x => match x with
                                     | OptTuple label value => [(label, value)]
                                     | _ => []
                                     end) l)
      else
        Raised (GrValueError
          "flagging_options must be a list of strings or list of (string, string) tuples.")
  end.

(** Components are objects: a component is known by its identity, and
    its [label] attribute, which the constructor sets in place, lives in a
    store shared by every list the component sits in. *)
Definition labels : Type := nat -> option string.

(** [component.label = l]. *)
Definition set_label (st : labels) (component : nat) (l : string) : labels :=
  fun c => if Nat.eqb c component then Some l else st c.

(** [__init__], the loop over [zip(self.input_components, param_names)]:
    an element that is no [Component] stops the constructor with a
    [TypeError]; a component whose label is [None] takes the parameter
    name.  The result is the exception raised, if any, and the labels as
    the loop left them. *)
Fixpoint label_inputs (is_Component : nat -> bool)
  (pairs : list (nat * string)) (st : labels) : option gr_exn * labels :=
  match pairs with
  | [] => (None, st)
  | (component, param_name) :: rest =>
      if negb (is_Component component)
      then (Some (GrTypeError "Input component must be a Component"), st)
      else
        label_inputs is_Component rest
          (match st component with
           | None => set_label st component param_name
           | Some _ => st
           end)
  end.

(** [__init__], the loop over [enumerate(self.output_components)], for
    [n_outputs] output components. *)
Fixpoint label_outputs (is_Component : nat -> bool) (n_outputs : nat)
  (indexed : list (nat * nat)) (st : labels) : option gr_exn * labels :=
  match indexed with
  | [] => (None, st)
  | (i, component) :: rest =>
      if negb (is_Component component)
      then (Some (GrTypeError "Output component must be a Component"), st)
      else
        label_outputs is_Component n_outputs rest
          (match st component with
           | None =>
               set_label st component
                 (if Nat.eqb n_outputs 1 then "output"
                  else ("output " ++ str_of_nat i)%string)
           | Some _ => st
           end)
  end.

(** [__init__], both loops: the inputs are named first, then the
    outputs, on the same objects. *)
Definition name_components (is_Component : nat -> bool)
  (input_components output_components : list nat)
  (param_names : list string) (st : labels) : option gr_exn * labels :=
  match label_inputs is_Component (zip input_components param_names) st with
  | (Some e, st1) => (Some e, st1)
  | (None, st1) =>
      label_outputs is_Component (List.length output_components)
        (enumerate output_components) st1
  end.

(** The buttons the rendering code creates. *)
Inductive Button : Type :=
| SubmitButton      (* a Button made from self.submit_btn_parms *)
| GenerateButton    (* the Button labelled Generate, variant primary *)
| ClearButton       (* a ClearButton made from self.clear_btn_params *)
| StopButton        (* a Button made from self.stop_btn_parms *)
| FlagButton (label : string)   (* a Button with that label *)
| DuplicateButton.

(** [a or b] on values that are [None] or an object. *)
Definition or_else {A : Type} (a b : option A) : option A :=
  match a with
  | Some x => Some x
  | None => b
  end.

(** [a or b] on values that are [None] or a list: an empty list counts as
    false. *)
Definition or_else_list {A : Type} (a b : option (list A))
  : option (list A) :=
  match a with
  | Some (x :: rest) => Some (x :: rest)
  | Some [] | None => b
  end.

Definition rbind {A B : Type} (r : res A) (k : A -> res B) : res B :=
  match r with
  | Returned a => k a
  | Raised e => Raised e
  end.

Section Rendering.
Context {C : Type}.
(** [isinstance(c, State)]. *)
Variable is_State : C -> bool.
(** [component.render()] on each component of a list, in order; it is
    code of [gradio.blocks] and may raise. *)
Variable render_components : list C -> res unit.
(** [component.has_event("stream") and component.streaming],
    [component.has_event("change")], [component.has_event(Events.submit)]. *)
Variable streams : C -> bool.
Variable has_change : C -> bool.
Variable has_submit : C -> bool.

(** What an event listens to: [button.click], [component.stream],
    [component.change], [component.submit]. *)
Inductive trigger : Type :=
| Click (b : Button)
| Stream (c : C)
| Change (c : C)
| Submit (c : C).

(** [on(triggers, ...)], code of [gradio.events]: it may raise. *)
Variable on : list trigger -> res unit.

(** The attributes of [self] the rendering code reads. *)
Record Self : Type := mkSelf {
  interface_type : InterfaceTypes;
  live : bool;
  (* inspect.isgeneratorfunction(self.fn) or
     inspect.isasyncgenfunction(self.fn) *)
  fn_is_generator : bool;
  allow_flagging : string;
  flagging_options : list (string * option_value);
  allow_duplication : bool;
  main_input_components : list C;
  additional_input_components : list C;
  output_components : list C
}.

Definition input_components (self : Self) : list C :=
  main_input_components self ++ additional_input_components self.

Definition render_flag_btns (self : Self) : list Button :=
  map (fun o => FlagButton (fst o)) (flagging_options self).

(** The components [__init__] hands to [flagging_callback.setup], when it
    calls it. *)
Definition flagging_setup (self : Self) : option (list C) :=
  if negb (String.eqb (allow_flagging self) "never") then
    match interface_type self with
    | UNIFIED => Some (input_components self)
    | INPUT_ONLY => None
    | STANDARD | OUTPUT_ONLY =>
        Some (input_components self ++ output_components self)
    end
  else None.

(** [render_input_column]: (submit, clear, stop, flag buttons). The column
    object it also returns is always there. *)
Definition render_input_column (self : Self)
  : res (option Button * option Button * option Button
         * option (list Button)) :=
  rbind (render_components (input_components self)) (fun _ =>
    match interface_type self with
    | STANDARD | INPUT_ONLY =>
        let _clear_btn := Some ClearButton in
        if negb (live self) then
          let _submit_btn := Some SubmitButton in
          let _stop_btn :=
            if fn_is_generator self then Some StopButton else None in
          Returned (_submit_btn, _clear_btn, _stop_btn, None)
        else Returned (None, _clear_btn, None, None)
    | UNIFIED =>
        let _clear_btn := Some ClearButton in
        let _submit_btn := Some SubmitButton in
        let _stop_btn :=
          if fn_is_generator self && negb (live self)
          then Some StopButton else None in
        let flag_btns :=
          if String.eqb (allow_flagging self) "manual"
          then Some (render_flag_btns self)
          else if String.eqb (allow_flagging self) "auto"
               then Some [SubmitButton]
               else None in
        Returned (_submit_btn, _clear_btn, _stop_btn, flag_btns)
    | OUTPUT_ONLY => Returned (None, None, None, None)
    end).

(** [render_output_column]: (submit, clear, duplicate, stop, flag
    buttons). *)
Definition render_output_column (self : Self) (_submit_btn_in : option Button)
  : res (option Button * option Button * option Button * option Button
         * option (list Button)) :=
  rbind (render_components
           (filter (fun c => negb (is_State c)) (output_components self)))
    (fun _ =>
    let '(_submit_btn, _clear_btn, _stop_btn) :=
      match interface_type self with
      | OUTPUT_ONLY =>
          (Some GenerateButton, Some ClearButton,
           if fn_is_generator self && negb (live self)
           then Some StopButton else None)
      | _ => (_submit_btn_in, None, None)
      end in
    let duplicate_btn :=
      if allow_duplication self then Some DuplicateButton else None in
    if String.eqb (allow_flagging self) "manual" then
      Returned (_submit_btn, _clear_btn, duplicate_btn, _stop_btn,
                Some (render_flag_btns self))
    else if String.eqb (allow_flagging self) "auto" then
      match _submit_btn with
      | None => Raised (GrRenderError "Submit button not rendered")
      | Some b =>
          Returned (_submit_btn, _clear_btn, duplicate_btn, _stop_btn,
                    Some [b])
      end
    else Returned (_submit_btn, _clear_btn, duplicate_btn, _stop_btn, None)).

(** What [attach_submit_events] wires. *)
Inductive Dependency : Type :=
| LoadAndClick (button : Button) (outputs : list C)
| OnEvents (events : list trigger) (streaming_event : bool)
    (inputs outputs : list C)
| OnSubmitWithStop (triggers : list trigger) (submit stop : Button)
    (inputs outputs : list C)
| OnSubmit (triggers : list trigger) (inputs outputs : list C).

(** [attach_submit_events], live: the events collected over the input
    components. *)
Definition live_events (self : Self) : list trigger :=
  flat_map (fun component =>
              if streams component then [Stream component]
              else if has_change component then [Change component]
              else [])
           (input_components self).

Definition streaming_event (self : Self) : bool :=
  existsb streams (input_components self).

(** [attach_submit_events], not live: the click of the submit button and
    the submit event of every input component that has one. *)
Definition submit_triggers (self : Self) (_submit_btn : Button)
  : list trigger :=
  Click _submit_btn
  :: map Submit (filter has_submit (input_components self)).

Definition attach_submit_events (self : Self)
  (_submit_btn _stop_btn : option Button) : res Dependency :=
  if live self then
    if InterfaceTypes_eqb (interface_type self) OUTPUT_ONLY then
      match _submit_btn with
      | None => Raised (GrRenderError "Submit button not rendered")
      | Some b => Returned (LoadAndClick b (output_components self))
      end
    else
      let events := live_events self in
      rbind (on events) (fun _ =>
        Returned (OnEvents events (streaming_event self)
                    (input_components self) (output_components self)))
  else
    match _submit_btn with
    | None => Raised (GrRenderError "Submit button not rendered")
    | Some b =>
        let triggers := submit_triggers self b in
        rbind (on triggers) (fun _ =>
          match _stop_btn with
          | Some stop =>
              Returned (OnSubmitWithStop triggers b stop
                          (input_components self) (output_components self))
          | None =>
              Returned (OnSubmit triggers (input_components self)
                          (output_components self))
          end)
    end.

(** The triggers [attach_submit_events] passes to [on], when the
    rendering gets that far and [on] is called. *)
Definition on_triggers (self : Self) : option (list trigger) :=
  if live self then
    if InterfaceTypes_eqb (interface_type self) OUTPUT_ONLY then None
    else Some (live_events self)
  else
    Some (submit_triggers self
            (if InterfaceTypes_eqb (interface_type self) OUTPUT_ONLY
             then GenerateButton else SubmitButton)).

(** One flag button wired to [FlagMethod(callback, label, value)]. *)
Record FlagBinding : Type := mkFlagBinding {
  flag_button : Button;
  flag_label : string;
  flag_value : string;
  flag_inputs : list C
}.

(** What [attach_flagging_events] wires. *)
Inductive Flagging : Type :=
| NoFlagging
| AutoFlagging (inputs : list C)
| ManualFlagging (bindings : list FlagBinding).

Fixpoint bind_flag_buttons (flag_components : list C)
  (pairs : list (Button * (string * option_value)))
  : res (list FlagBinding) :=
  match pairs with
  | [] => Returned []
  | (flag_btn, (label, value)) :: rest =>
      match value with
      | NotStr => Raised (GrTypeError "Flagging option value must be a string")
      | StrValue v =>
          rbind (bind_flag_buttons flag_components rest) (fun bs =>
            Returned (mkFlagBinding flag_btn label v flag_components :: bs))
      end
  end.

Definition flagging_types (t : InterfaceTypes) : bool :=
  match t with
  | STANDARD | OUTPUT_ONLY | UNIFIED => true
  | INPUT_ONLY => false
  end.

Definition attach_flagging_events (self : Self)
  (flag_btns : option (list Button)) : res Flagging :=
  match flag_btns with
  | None | Some [] => Returned NoFlagging
  | Some btns =>
      if negb (flagging_types (interface_type self)) then Returned NoFlagging
      else if String.eqb (allow_flagging self) "auto" then
        Returned (AutoFlagging (input_components self
                                ++ output_components self))
      else
        let flag_components :=
          if InterfaceTypes_eqb (interface_type self) UNIFIED
          then input_components self
          else input_components self ++ output_components self in
        rbind (bind_flag_buttons flag_components
                 (zip btns (flagging_options self)))
              (fun bs => Returned (ManualFlagging bs))
  end.

(** What the rendering block of [__init__] leaves behind. *)
Record Rendered : Type := mkRendered {
  submit_btn : option Button;
  clear_btn : Button;
  stop_btn : option Button;
  flag_btns : option (list Button);
  duplicate_btn : option Button;
  submit_event : Dependency;
  flagging : Flagging
}.

(** [__init__], the block [with self:], from the two columns to
    [attach_flagging_events]. *)
Definition render (self : Self) : res Rendered :=
  rbind
    (match interface_type self with
     | STANDARD | INPUT_ONLY | UNIFIED => render_input_column self
     | OUTPUT_ONLY => Returned (None, None, None, None)
     end)
    (fun '(_submit_btn, _clear_btn, _stop_btn, flag_btns) =>
  rbind
    (match interface_type self with
     | STANDARD | OUTPUT_ONLY =>
         rbind (render_output_column self _submit_btn)
           (fun '(_submit_btn_out, _clear_btn_2_out, duplicate_btn,
                  _stop_btn_2_out, flag_btns_out) =>
              Returned (or_else _submit_btn _submit_btn_out,
                        or_else _clear_btn _clear_btn_2_out,
                        or_else _stop_btn _stop_btn_2_out,
                        or_else_list flag_btns flag_btns_out,
                        duplicate_btn))
     | INPUT_ONLY | UNIFIED =>
         Returned (_submit_btn, _clear_btn, _stop_btn, flag_btns, None)
     end)
    (fun '(_submit_btn, _clear_btn, _stop_btn, flag_btns, duplicate_btn) =>
  match _clear_btn with
  | None => Raised (GrRenderError "Clear button not rendered")
  | Some clear =>
      rbind (attach_submit_events self _submit_btn _stop_btn)
        (fun _submit_event =>
      rbind (attach_flagging_events self flag_btns) (fun fl =>
        Returned (mkRendered _submit_btn clear _stop_btn flag_btns
                    duplicate_btn _submit_event fl)))
  end)).

End Rendering.

(** ** interface.py: [TabbedInterface] *)

(** [TabbedInterface.__init__]: the tabs rendered, each an interface under
    its name. *)
Definition tabs {I : Type} (interface_list : list I)
  (tab_names : option (list string)) : list (I * string) :=
  let tab_names :=
    match tab_names with
    | None =>
        map (fun i => ("Tab " ++ str_of_nat i)%string)
            (seq 0 (List.length interface_list))
    | Some names => names
    end in
  zip interface_list tab_names.

End Interface.

(** ** flagging.py *)

Module Flagging.

(** [x or default] on a value that is [None] or a string: the empty string
    counts as false. *)
Definition str_or (x : option string) (default : string) : string :=
  match x with
  | Some EmptyString | None => default
  | Some l => l
  end.

(** A CSV file as [csv.reader] lists it and [csv.writer] extends it: its
    rows, each a list of cells. *)
Definition csv_file : Type := list (list string).

(** The flagging directory: the sub-directories made in it, and log.csv
    when it exists. *)
Record Disk : Type := mkDisk {
  dirs : list string;
  log : option csv_file
}.

Section Loggers.
(** The components, and the values flagged. *)
Context {C sample : Type}.
(** [component.label]. *)
Variable label : C -> option string.
(** [component.flag(sample, save_dir)], code of the component classes: what
    it returns, and the exception it raises instead, if any. *)
Variable component_flag : C -> option sample -> string -> string.
Variable flag_error : C -> option sample -> string -> option gr_exn.
(** [client_utils.strip_invalid_filename_characters], the path under the
    flagging directory, [utils.is_update], [str(sample)],
    [utils.simplify_file_data_in_str] and [utils.sanitize_list_for_csv]. *)
Variable strip_invalid_filename_characters : string -> string.
Variable under_flagging_dir : string -> string.
Variable is_update : option sample -> bool.
Variable str : option sample -> string.
Variable simplify_file_data_in_str : string -> string.
Variable sanitize_list_for_csv : list string -> list string.
(** The file system and the csv module: what [save_dir.mkdir] raises for a
    directory, what opening log.csv for appending and writing these rows
    raises, what listing log.csv through [csv.reader] raises; [None] when
    the call returns. *)
Variable mkdir_error : string -> option gr_exn.
Variable write_error : option csv_file -> csv_file -> option gr_exn.
Variable read_error : csv_file -> option gr_exn.

(** [len(list(csv.reader(csvfile))) - 1]. *)
Definition line_count (rows : csv_file) : Z :=
  Z.of_nat (List.length rows) - 1.

Definition rows_of (f : option csv_file) : csv_file :=
  match f with
  | Some rows => rows
  | None => []
  end.

(** How a call of [flag] ends: with the count; with an exception raised
    before log.csv was touched; with an exception raised while log.csv
    was being written; with an exception raised by the reading back,
    after the row was written. *)
Inductive outcome : Type :=
| Counted (n : Z)
| RaisedBeforeWrite (e : gr_exn)
| RaisedWriting (e : gr_exn)
| RaisedAfterWrite (e : gr_exn).

(** Whether a call left its row in log.csv. *)
Definition wrote_row (o : outcome) : bool :=
  match o with
  | Counted _ | RaisedAfterWrite _ => true
  | RaisedBeforeWrite _ | RaisedWriting _ => false
  end.

Definition rows_written (os : list outcome) : nat :=
  List.length (filter wrote_row os).

(** The reading back at the end of [flag], on the rows now in log.csv. *)
Definition count_rows (rows : csv_file) : outcome :=
  match read_error rows with
  | Some e => RaisedAfterWrite e
  | None => Counted (line_count rows)
  end.

(** [SimpleCSVLogger.flag], the loop: for each component and its value the
    directory is made, then the component saves the value. *)
Fixpoint simple_csv_data (pairs : list (C * option sample))
  (made : list string) : res (list string) * list string :=
  match pairs with
  | [] => (Returned [], made)
  | (component, sample) :: rest =>
      let save_dir :=
        under_flagging_dir
          (strip_invalid_filename_characters (str_or (label component) "")) in
      match mkdir_error save_dir with
      | Some e => (Raised e, made)
      | None =>
          match flag_error component sample save_dir with
          | Some e => (Raised e, made ++ [save_dir])
          | None =>
              let cell := component_flag component sample save_dir in
              let (r, made') := simple_csv_data rest (made ++ [save_dir]) in
              (match r with
               | Returned cells => Returned (cell :: cells)
               | Raised e => Raised e
               end, made')
          end
      end
  end.

(** [SimpleCSVLogger.flag]: how it ends, and the flagging directory
    afterwards, which is not known when the writing raised. *)
Definition SimpleCSVLogger_flag (components : list C)
  (flag_data : list (option sample)) (disk : Disk) : outcome * option Disk :=
  match simple_csv_data (zip components flag_data) (dirs disk) with
  | (Raised e, made) => (RaisedBeforeWrite e, Some (mkDisk made (log disk)))
  | (Returned csv_data, made) =>
      let written := [sanitize_list_for_csv csv_data] in
      match write_error (log disk) written with
      | Some e => (RaisedWriting e, None)
      | None =>
          let rows := rows_of (log disk) ++ written in
          (count_rows rows, Some (mkDisk made (Some rows)))
      end
  end.

(** [CSVLogger.flag], the header row. *)
Definition CSVLogger_headers (components : list C) : list string :=
  map (fun p => str_or (label (snd p))
                  ("component " ++ str_of_nat (fst p))%string)
      (enumerate components)
  ++ ["flag"; "username"; "timestamp"].

(** [CSVLogger.flag], the data row; [now] is
    [str(datetime.datetime.now())]. *)
Definition CSVLogger_csv_data (simplify_file_data : bool)
  (components : list C) (flag_data : list (option sample))
  (flag_option : string) (username : option string) (now : string)
  : list string :=
  map (fun p =>
         let '(idx, (component, sample)) := p in
         let save_dir :=
           under_flagging_dir
             (strip_invalid_filename_characters
                (str_or (label component)
                   ("component " ++ str_of_nat idx)%string)) in
         if is_update sample then str sample
         else
           let data :=
             match sample with
             | Some _ => component_flag component sample save_dir
             | None => ""
             end in
           if simplify_file_data then simplify_file_data_in_str data
           else data)
      (enumerate (zip components flag_data))
  ++ [flag_option;
      match username with Some u => u | None => "" end;
      now].

(** [CSVLogger.flag], the loop: the first exception a [component.flag]
    raises in it; the component is not called for an update or for
    [None]. *)
Fixpoint CSVLogger_data_error (indexed : list (nat * (C * option sample)))
  : option gr_exn :=
  match indexed with
  | [] => None
  | (idx, (component, sample)) :: rest =>
      let save_dir :=
        under_flagging_dir
          (strip_invalid_filename_characters
             (str_or (label component)
                ("component " ++ str_of_nat idx)%string)) in
      let raised :=
        if is_update sample then None
        else match sample with
             | Some _ => flag_error component sample save_dir
             | None => None
             end in
      match raised with
      | Some e => Some e
      | None => CSVLogger_data_error rest
      end
  end.

(** [CSVLogger.flag]: how it ends, and the flagging directory afterwards,
    which is not known when the writing raised. *)
Definition CSVLogger_flag (simplify_file_data : bool) (components : list C)
  (flag_data : list (option sample)) (flag_option : string)
  (username : option string) (now : string) (disk : Disk)
  : outcome * option Disk :=
  let is_new := match log disk with None => true | Some _ => false end in
  let headers := CSVLogger_headers components in
  match CSVLogger_data_error (enumerate (zip components flag_data)) with
  | Some e => (RaisedBeforeWrite e, Some disk)
  | None =>
      let csv_data :=
        CSVLogger_csv_data simplify_file_data components flag_data
          flag_option username now in
      let written :=
        (if is_new then [sanitize_list_for_csv headers] else [])
        ++ [sanitize_list_for_csv csv_data] in
      match write_error (log disk) written with
      | Some e => (RaisedWriting e, None)
      | None =>
          let rows := rows_of (log disk) ++ written in
          (count_rows rows, Some (mkDisk (dirs disk) (Some rows)))
      end
  end.

(** One press of a flag button: the values, the option, the user, the
    time. *)
Definition press : Type :=
  (list (option sample) * string * option string * string)%type.

(** How the calls of [flag] end over a sequence of presses, up to the
    first one whose writing raised. *)
Fixpoint CSVLogger_flags (simplify_file_data : bool) (components : list C)
  (presses : list press) (disk : Disk) : list outcome :=
  match presses with
  | [] => []
  | (flag_data, flag_option, username, now) :: rest =>
      let (o, after) :=
        CSVLogger_flag simplify_file_data components flag_data flag_option
          username now disk in
      o :: match after with
           | Some disk' =>
               CSVLogger_flags simplify_file_data components rest disk'
           | None => []
           end
  end.

Fixpoint SimpleCSVLogger_flags (components : list C)
  (presses : list press) (disk : Disk) : list outcome :=
  match presses with
  | [] => []
  | (flag_data, _, _, _) :: rest =>
      let (o, after) := SimpleCSVLogger_flag components flag_data disk in
      o :: match after with
           | Some disk' => SimpleCSVLogger_flags components rest disk'
           | None => []
           end
  end.

End Loggers.

(** What [FlagMethod.__call__] does besides calling the callback. *)
Inductive effect : Type :=
| PrintError (e : gr_exn)
| Sleep.

(** What [FlagMethod.__call__] returns: the text "Error!", nothing, or
    the button reset to its label. *)
Inductive feedback : Type :=
| ErrorText
| NoValue
| ResetButton (label : string).

Section FlagMethod.
Context {sample St : Type}.

Record FlagMethod : Type := mkFlagMethod {
  (* flagging_callback.flag(flag_data, flag_option=..., username=...) *)
  flagging_callback :
    list (option sample) -> string -> option string -> St -> res Z * St;
  fm_label : string;
  fm_value : string;
  visual_feedback : bool
}.

(** [FlagMethod.__call__(request, *flag_data)]. *)
Definition FlagMethod_call (self : FlagMethod) (username : option string)
  (flag_data : list (option sample)) (st : St)
  : feedback * list effect * St :=
  let (r, st') := flagging_callback self flag_data (fm_value self) username st in
  match r with
  | Raised e =>
      if visual_feedback self
      then (ErrorText, [PrintError e], st')
      else (NoValue, [PrintError e], st')
  | Returned _ =>
      if negb (visual_feedback self) then (NoValue, [], st')
      else (ResetButton (fm_label self), [Sleep], st')
  end.

End FlagMethod.

End Flagging.

(** ** components/gallery.py and components/download_button.py *)

Record FileData : Type := mkFileData {
  path : string;
  url : option string;
  orig_name : option string
}.

Module Gallery.

Record GalleryImage : Type := mkGalleryImage {
  image : FileData;
  caption : option string
}.

(** [GalleryData]: its [root]. *)
Definition GalleryData : Type := list GalleryImage.

Section Gallery.
(** NumPy arrays and PIL images. *)
Context {A P : Type}.
(** [str(utils.abspath(processing_utils.save_img_array_to_cache(...)))]
    and the same for a PIL image; [is_http_url_like];
    [Path(urlparse(img).path).name]; [Path(img).name]; [PIL.Image.open];
    [np.array]. *)
Variable save_img_array_to_cache : A -> string.
Variable save_pil_to_cache : P -> string.
Variable is_http_url_like : string -> bool.
Variable url_name : string -> string.
Variable path_name : string -> string.
Variable PIL_Image_open : string -> res P.
Variable np_array : P -> A.

(** An image as the prediction function returns it; a [Path] is carried
    as its [str]. *)
Inductive img : Type :=
| Array (a : A)
| Pil (p : P)
| Str (s : string)
| PathObj (s : string)
| OtherType.

(** An element of the returned list: an image, an (image, caption) pair,
    or a tuple or list of another length. *)
Inductive element : Type :=
| Bare (i : img)
| Captioned (i : img) (caption : option string)
| WrongLength.

(** [_save] inside [postprocess]. *)
Definition _save (x : element) : res GalleryImage :=
  match x with
  | WrongLength => Raised (GrValueError "unpack")
  | Bare i | Captioned i _ =>
      let caption :=
        match x with Captioned _ c => c | _ => None end in
      match i with
      | Array a =>
          Returned (mkGalleryImage
                      (mkFileData (save_img_array_to_cache a) None None)
                      caption)
      | Pil p =>
          Returned (mkGalleryImage
                      (mkFileData (save_pil_to_cache p) None None) caption)
      | Str s =>
          Returned (mkGalleryImage
                      (if is_http_url_like s
                       then mkFileData s (Some s) (Some (url_name s))
                       else mkFileData s None (Some (path_name s)))
                      caption)
      | PathObj s =>
          Returned (mkGalleryImage
                      (mkFileData s None (Some (path_name s))) caption)
      | OtherType => Raised (GrValueError "Cannot process type as image")
      end
  end.

(** The results of [_save] over the list, in order; the first exception in
    that order is the one raised. *)
Fixpoint save_all (value : list element) : res GalleryData :=
  match value with
  | [] => Returned []
  | x :: rest =>
      match _save x with
      | Raised e => Raised e
      | Returned o =>
          match save_all rest with
          | Raised e => Raised e
          | Returned os => Returned (o :: os)
          end
      end
  end.

(** [Gallery.postprocess]. *)
Definition postprocess (value : option (list element)) : res GalleryData :=
  match value with
  | None => Returned []
  | Some l => save_all l
  end.

(** What [convert_to_type] returns. *)
Inductive converted : Type :=
| AsPath (s : string)
| AsPil (p : P)
| AsNumpy (a : A).

(** [Gallery.convert_to_type]. *)
Definition convert_to_type (img : string) (type : string) : res converted :=
  if String.eqb type "filepath" then Returned (AsPath img)
  else
    match PIL_Image_open img with
    | Raised e => Raised e
    | Returned converted_image =>
        if String.eqb type "numpy"
        then Returned (AsNumpy (np_array converted_image))
        else Returned (AsPil converted_image)
    end.

Fixpoint convert_all (type : string) (root : GalleryData)
  : res (list (converted * option string)) :=
  match root with
  | [] => Returned []
  | gallery_element :: rest =>
      match convert_to_type (path (image gallery_element)) type with
      | Raised e => Raised e
      | Returned image =>
          match convert_all type rest with
          | Raised e => Raised e
          | Returned data => Returned ((image, caption gallery_element) :: data)
          end
      end
  end.

(** [Gallery.preprocess] of a gallery whose [type] attribute is [type]. *)
Definition preprocess (type : string) (payload : option GalleryData)
  : res (option (list (converted * option string))) :=
  match payload with
  | None | Some [] => Returned None
  | Some root =>
      match convert_all type root with
      | Raised e => Raised e
      | Returned data => Returned (Some data)
      end
  end.

(** The caption an element carries. *)
Definition caption_of (x : element) : option string :=
  match x with
  | Captioned _ c => c
  | Bare _ | WrongLength => None
  end.

(** An element [_save] can process. *)
Definition supported (x : element) : bool :=
  match x with
  | Bare OtherType | Captioned OtherType _ | WrongLength => false
  | Bare _ | Captioned _ _ => true
  end.

(** The image an element carries, and the path of the file [_save] refers
    to for it: where the array or the PIL image was saved in the cache,
    or the string or [Path] itself. *)
Definition img_of (x : element) : option img :=
  match x with
  | Bare i | Captioned i _ => Some i
  | WrongLength => None
  end.

Definition path_of (x : element) : option string :=
  match img_of x with
  | Some (Array a) => Some (save_img_array_to_cache a)
  | Some (Pil p) => Some (save_pil_to_cache p)
  | Some (Str s) | Some (PathObj s) => Some s
  | Some OtherType | None => None
  end.

(** The path and caption of an element that names a file: a string or a
    [Path], alone or with a caption. *)
Definition file_of (x : element) : option (string * option string) :=
  match x with
  | Bare (Str s) | Bare (PathObj s) => Some (s, None)
  | Captioned (Str s) c | Captioned (PathObj s) c => Some (s, c)
  | _ => None
  end.

End Gallery.

End Gallery.

Module DownloadButton.

Section DownloadButton.
(** The file system, with the cache directory in it. *)
Context {FS : Type}.
(** [tempfile.NamedTemporaryFile(delete=False, dir=self.GRADIO_CACHE)]: it
    raises, or it returns a file object and leaves a new file in the
    directory. *)
Context {file_object : Type}.
Variable NamedTemporaryFile : FS -> res file_object * FS.

(** [DownloadButton.preprocess]; the file object only has its [name]
    attribute overwritten and is dropped. *)
Definition preprocess (payload : option FileData) (fs : FS)
  : res (option string) * FS :=
  match payload with
  | None => (Returned None, fs)
  | Some p =>
      let file_name := path p in
      match NamedTemporaryFile fs with
      | (Raised e, fs') => (Raised e, fs')
      | (Returned file, fs') => (Returned (Some file_name), fs')
      end
  end.

(** [DownloadButton.postprocess]; the value is carried as its [str]. *)
Definition postprocess (value : option string) : option FileData :=
  match value with
  | None => None
  | Some v => Some (mkFileData v None None)
  end.

End DownloadButton.

End DownloadButton.

(** What the flag events of a rendered interface have to do with the
    components the flagging callback was set up with: automatic flagging
    sends the values of those components first, a manual flag button
    sends exactly their values, and the buttons are the options in
    order. *)
Definition flagging_agrees {C : Type} (self : @Interface.Self C)
  (fl : @Interface.Flagging C) : Prop :=
  match fl with
  | Interface.NoFlagging =>
      Interface.interface_type self = Interface.INPUT_ONLY
      \/ (Interface.allow_flagging self <> "manual"
          /\ Interface.allow_flagging self <> "auto")
      \/ Interface.flagging_options self = []
  | Interface.AutoFlagging flagged =>
      Interface.allow_flagging self = "auto" /\
      exists comps extra,
        Interface.flagging_setup self = Some comps /\
        flagged = comps ++ extra
  | Interface.ManualFlagging bs =>
      Interface.allow_flagging self = "manual" /\
      exists comps,
        Interface.flagging_setup self = Some comps /\
        Forall (fun b => Interface.flag_inputs b = comps) bs /\
        map (fun b => (Interface.flag_button b,
                       (Interface.flag_label b,
                        Interface.StrValue (Interface.flag_value b)))) bs
        = map (fun o => (Interface.FlagButton (fst o), o))
              (Interface.flagging_options self)
  end.

(** Interfaces for the examples: components are numbered, number 0 is a
    [State], and every component renders. *)
Definition demo_is_State (c : nat) : bool := Nat.eqb c 0.

Definition demo_render_components (l : list nat) : res unit := Returned tt.

(** No example component streams; all but the [State] have a change
    event; component 1 has a submit event; [on] refuses an empty list of
    triggers. *)
Definition demo_streams (c : nat) : bool := false.
Definition demo_has_change (c : nat) : bool := negb (Nat.eqb c 0).
Definition demo_has_submit (c : nat) : bool := Nat.eqb c 1.

Definition demo_on (triggers : list (@Interface.trigger nat)) : res unit :=
  match triggers with
  | [] => Raised (GrException "IndexError")
  | _ :: _ => Returned tt
  end.

Definition demo_render (self : @Interface.Self nat)
  : res (@Interface.Rendered nat) :=
  Interface.render demo_is_State demo_render_components demo_streams
    demo_has_change demo_has_submit demo_on self.

(** A live interface whose only input is a [State]. *)
Definition live_state_only : @Interface.Self nat :=
  Interface.mkSelf Interface.STANDARD true false "never"
    [("Flag", Interface.StrValue "")] false [0] [] [3].

Definition live_auto : @Interface.Self nat :=
  Interface.mkSelf Interface.STANDARD true false "auto"
    [("Flag", Interface.StrValue "")] false [1; 2] [] [3].

Definition manual_standard : @Interface.Self nat :=
  Interface.mkSelf Interface.STANDARD false true "manual"
    [("Flag as wrong", Interface.StrValue "wrong");
     ("Flag as odd", Interface.StrValue "odd")] true [1; 2] [4] [3].

Definition auto_unified : @Interface.Self nat :=
  Interface.mkSelf Interface.UNIFIED false false "auto"
    [("Flag", Interface.StrValue "")] false [1; 2] [] [1; 2].

(** A flagging directory for the examples: every directory can be made
    and every row written, and log.csv can be read back unless it holds
    the cell "HUGE", which stands for a cell above the size limit of
    [csv.reader]. *)
Definition demo_read_error (rows : Flagging.csv_file) : option gr_exn :=
  if existsb (existsb (String.eqb "HUGE")) rows
  then Some (GrException "_csv.Error") else None.

Definition demo_component_flag (c : nat) (s : option string) (dir : string)
  : string :=
  match s with Some v => v | None => "" end.

Definition demo_flag_error (c : nat) (s : option string) (dir : string)
  : option gr_exn :=
  match s with
  | Some "BAD" => Some (GrException "TypeError")
  | _ => None
  end.

Definition demo_CSVLogger_flags
  (presses : list (@Flagging.press string)) : list Flagging.outcome :=
  Flagging.CSVLogger_flags (fun c : nat => Some "image") demo_component_flag
    demo_flag_error
    (fun s => s) (fun s => s) (fun _ => false) (fun s : option string => match s with Some v => v | None => "None" end)
    (fun s => s) (fun row => row) (fun _ _ => None) demo_read_error
    true [1; 2] presses (Flagging.mkDisk [] None).

Definition demo_SimpleCSVLogger_flags
  (presses : list (@Flagging.press string)) : list Flagging.outcome :=
  Flagging.SimpleCSVLogger_flags (fun c : nat => Some "image")
    demo_component_flag demo_flag_error (fun s => s) (fun s => s)
    (fun row => row)
    (fun _ => None) (fun _ _ => None) demo_read_error
    [1; 2] presses (Flagging.mkDisk [] None).

Definition two_presses : list (@Flagging.press string) :=
  [([Some "a"; Some "b"], "", None, "t1");
   ([Some "c"; None], "", None, "t2")].

Definition bad_then_good : list (@Flagging.press string) :=
  [([Some "a"; Some "BAD"], "", None, "t1");
   ([Some "c"; None], "", None, "t2")].

Definition huge_then_small : list (@Flagging.press string) :=
  [([Some "a"; Some "b"], "", None, "t1");
   ([Some "HUGE"; None], "", None, "t2");
   ([Some "c"; None], "", None, "t3")].

(** A cache directory for the examples: missing, or holding a number of
    files. *)
Definition demo_NamedTemporaryFile (fs : option nat)
  : res unit * option nat :=
  match fs with
  | None => (Raised (GrException "FileNotFoundError"), None)
  | Some n => (Returned tt, Some (S n))
  end.

(** ** The functions, step by step *)

Lemma Artifact_predict_fst (a : Artifact) (X : DataFrame) :
  fst (Artifact_predict a X) = answer a X.
Proof.
  unfold Artifact_predict, answer.
  destruct (art_predict a (art_state a) X); reflexivity.
Qed.

Lemma read_only_predict (a : Artifact) (X : DataFrame) :
  read_only a -> snd (Artifact_predict a X) = a.
Proof.
  intros Hro. unfold Artifact_predict.
  specialize (Hro (art_state a) X).
  destruct (art_predict a (art_state a) X) as [r s']; simpl in *.
  subst s'. destruct a; reflexivity.
Qed.

(** The outcome and the world after one call of [predict_gld_price]. *)
Lemma predict_gld_price_run (w : World GradioReg.Globals)
  (SPX USO SLV EURUSD : pyfloat) :
  GradioReg.predict_gld_price SPX USO SLV EURUSD w =
  let X := features_df SPX USO SLV EURUSD in
  let a := GradioReg.linear (globals w) in
  (match answer a X with
   | Ok arr => getitem arr 0
   | Raise e => Raise e
   end,
   mkWorld (GradioReg.mkGlobals (snd (Artifact_predict a X)))
           (trace w ++ [NewDataFrame X; Predict "linear" X])).
Proof.
  unfold GradioReg.predict_gld_price, pd_DataFrame, call_predict, bind, lift,
    log, ret, features_df, feature_names, answer, Artifact_predict; simpl.
  destruct (art_predict _ _ _) as [[arr | e] s']; simpl;
    rewrite <- app_assoc; simpl.
  - destruct (getitem arr 0); reflexivity.
  - reflexivity.
Qed.

(** The outcome and the world after one call of [compare_models]. *)
Lemma compare_models_run (w : World Comparaison.Globals)
  (SPX USO SLV EURUSD : pyfloat) :
  Comparaison.compare_models SPX USO SLV EURUSD w =
  let X := features_df SPX USO SLV EURUSD in
  let lin := Comparaison.linear_regressor (globals w) in
  let fo := Comparaison.forest_regressor (globals w) in
  let lin' := snd (Artifact_predict lin X) in
  match answer lin X with
  | Raise e =>
      (Raise e,
       mkWorld (Comparaison.mkGlobals lin' fo)
               (trace w ++ [NewDataFrame X; Predict "linear_regressor" X]))
  | Ok l =>
      (match answer fo X with
       | Raise e => Raise e
       | Ok f =>
           match getitem l 0 with
           | Raise e => Raise e
           | Ok x =>
               match getitem f 0 with
               | Raise e => Raise e
               | Ok y => Ok (x, y)
               end
           end
       end,
       mkWorld (Comparaison.mkGlobals lin' (snd (Artifact_predict fo X)))
               (trace w ++ [NewDataFrame X; Predict "linear_regressor" X;
                            Predict "forest_regressor" X]))
  end.
Proof.
  unfold Comparaison.compare_models, pd_DataFrame, call_predict, bind, lift,
    log, ret, features_df, feature_names, answer, Artifact_predict; simpl.
  destruct (art_predict (Comparaison.linear_regressor _) _ _)
    as [[l | e] sl]; simpl.
  - destruct (art_predict (Comparaison.forest_regressor _) _ _)
      as [[f | e] sf]; simpl; repeat rewrite <- app_assoc; simpl.
    + destruct (getitem l 0); simpl; [destruct (getitem f 0)|]; reflexivity.
    + reflexivity.
  - rewrite <- app_assoc; reflexivity.
Qed.

(** ** The scripts on examples *)

Example scripts_answer_clicks :
  responses GradioReg.predict_gld_price (GradioReg.start demo_files)
    [ones; (of_Z 1400, of_Z 12, of_Z 15, of_Z 1)]
  = [Some (Ok (of_Z 20)); Some (Ok (of_Z 1483))] /\
  responses Comparaison.compare_models (Comparaison.start demo_files)
    [ones; (of_Z 1400, of_Z 12, of_Z 15, of_Z 1)]
  = [Some (Ok (of_Z 20, of_Z 100)); Some (Ok (of_Z 1483, of_Z 200))].
Proof. split; vm_compute; reflexivity. Qed.

Example forest_file_missing :
  Comparaison.start linear_only
  = Crashed (FileNotFoundError "forest_regressor_model.pkl").
Proof. reflexivity. Qed.

Example garbage_file :
  GradioReg.start (with_file no_files "linear_regression_model.pkl" Garbage)
  = Crashed (UnpicklingError "linear_regression_model.pkl").
Proof. reflexivity. Qed.

(** An empty answer makes [predicted_price[0]] raise. *)
Example empty_answer_raises :
  fst (GradioReg.predict_gld_price (of_Z 1) (of_Z 1) (of_Z 1) (of_Z 1)
         (mkWorld (GradioReg.mkGlobals Silent) []))
  = Raise (IndexError "index out of bounds").
Proof. reflexivity. Qed.

(** * The comparator *)

(** C1. Whatever clicks came before, when both models answer the frame of
    the four inputs, [compare_models] returns a pair whose first component
    is the first entry of the linear model's answer and whose second
    component is the first entry of the forest model's answer. *)
Theorem compare_models_fixed_order :
  forall (history : list request) (w0 : World Comparaison.Globals)
         (SPX USO SLV EURUSD : pyfloat) (l f : ndarray) (x y : pyfloat),
    let w := after Comparaison.compare_models history w0 in
    let X := features_df SPX USO SLV EURUSD in
    answer (Comparaison.linear_regressor (globals w)) X = Ok l ->
    answer (Comparaison.forest_regressor (globals w)) X = Ok f ->
    nth_error l 0 = Some x ->
    nth_error f 0 = Some y ->
    fst (Comparaison.compare_models SPX USO SLV EURUSD w) = Ok (x, y).
Proof.
  intros history w0 SPX USO SLV EURUSD l f x y w X Hl Hf Hx Hy.
  rewrite compare_models_run; cbv zeta.
  fold X. rewrite Hl, Hf. unfold getitem. rewrite Hx, Hy. reflexivity.
Qed.

Lemma compare_models_fixed_order_witness :
  fst (Comparaison.compare_models (of_Z 1) (of_Z 1) (of_Z 1) (of_Z 1)
         (after Comparaison.compare_models [ones; ones] demo_comparator))
  = Ok (of_Z 20, of_Z 100).
Proof.
  apply (compare_models_fixed_order [ones; ones] demo_comparator
           (of_Z 1) (of_Z 1) (of_Z 1) (of_Z 1) [of_Z 20] [of_Z 100]);
    vm_compute; reflexivity.
Defined.

(** C2. One call of [compare_models] builds exactly one frame, the single
    row of the four inputs, and that same frame is the argument of the
    linear model's [predict] and of the forest model's [predict]; the
    forest model is reached when the linear model's call returned. *)
Theorem compare_models_one_frame :
  forall (w : World Comparaison.Globals) (SPX USO SLV EURUSD : pyfloat),
    let X := mkDataFrame ["SPX"; "USO"; "SLV"; "EUR/USD"]
                         [[SPX; USO; SLV; EURUSD]] in
    trace (snd (Comparaison.compare_models SPX USO SLV EURUSD w)) =
    trace w ++
      NewDataFrame X :: Predict "linear_regressor" X ::
      (if is_ok (answer (Comparaison.linear_regressor (globals w)) X)
       then [Predict "forest_regressor" X] else []).
Proof.
  intros w SPX USO SLV EURUSD X.
  rewrite compare_models_run; cbv zeta.
  change (features_df SPX USO SLV EURUSD) with X.
  destruct (answer (Comparaison.linear_regressor (globals w)) X);
    reflexivity.
Qed.

(** C7. When the [predict] call of either model raises, [compare_models]
    raises: no pair is returned, so no half of a pair either. *)
Theorem compare_models_all_or_nothing :
  forall (w : World Comparaison.Globals) (SPX USO SLV EURUSD : pyfloat),
    let X := features_df SPX USO SLV EURUSD in
    is_ok (answer (Comparaison.linear_regressor (globals w)) X) = false \/
    is_ok (answer (Comparaison.forest_regressor (globals w)) X) = false ->
    exists e : exn,
      fst (Comparaison.compare_models SPX USO SLV EURUSD w) = Raise e.
Proof.
  intros w SPX USO SLV EURUSD X H.
  rewrite compare_models_run; cbv zeta. fold X.
  destruct (answer (Comparaison.linear_regressor (globals w)) X) as [l | e].
  - destruct H as [H | H]; [discriminate H|].
    destruct (answer (Comparaison.forest_regressor (globals w)) X)
      as [f | e]; [discriminate H|].
    exists e; reflexivity.
  - exists e; reflexivity.
Qed.

Lemma compare_models_all_or_nothing_witness :
  exists e : exn,
    fst (Comparaison.compare_models (of_Z 1) (of_Z 1) (of_Z 1) (of_Z 1)
           (mkWorld (Comparaison.mkGlobals demo_linear
                       (Broken (ModelError "not fitted"))) []))
    = Raise e.
Proof.
  apply compare_models_all_or_nothing. right. reflexivity.
Defined.



(** * The predictor and the comparator side by side *)

(** Both scripts name the same file for the linear model, so on one store
    they start with the same linear model. *)
Lemma same_file_same_model (fs : filesystem)
  (w1 : World GradioReg.Globals) (w2 : World Comparaison.Globals) :
  GradioReg.start fs = Serving w1 ->
  Comparaison.start fs = Serving w2 ->
  GradioReg.linear (globals w1) = Comparaison.linear_regressor (globals w2).
Proof.
  unfold GradioReg.start, GradioReg.exec_module, Comparaison.start,
    Comparaison.exec_module.
  change Comparaison.linear_model_filename with GradioReg.model_filename.
  destruct (joblib_load fs GradioReg.model_filename) as [a | e];
    [|discriminate].
  destruct (joblib_load fs Comparaison.forest_model_filename) as [b | e];
    [|discriminate].
  intros H1 H2. injection H1 as <-. injection H2 as <-. reflexivity.
Qed.

(** C3. With the same linear model loaded in both scripts, whenever
    [compare_models] returns a pair, [predict_gld_price] on the same four
    inputs returns the first component of that pair. *)
Theorem predict_is_first_of_compare :
  forall (w1 : World GradioReg.Globals) (w2 : World Comparaison.Globals)
         (SPX USO SLV EURUSD : pyfloat) (p : pyfloat * pyfloat),
    GradioReg.linear (globals w1) = Comparaison.linear_regressor (globals w2) ->
    fst (Comparaison.compare_models SPX USO SLV EURUSD w2) = Ok p ->
    fst (GradioReg.predict_gld_price SPX USO SLV EURUSD w1) = Ok (fst p).
Proof.
  intros w1 w2 SPX USO SLV EURUSD p Hsame Hcmp.
  rewrite compare_models_run in Hcmp; cbv zeta in Hcmp.
  rewrite predict_gld_price_run; cbv zeta. rewrite Hsame. simpl.
  destruct (answer (Comparaison.linear_regressor (globals w2)) _)
    as [l | e]; simpl in Hcmp; [|discriminate Hcmp].
  destruct (answer (Comparaison.forest_regressor (globals w2)) _)
    as [f | e]; [|discriminate Hcmp].
  destruct (getitem l 0) as [x | e]; [|discriminate Hcmp].
  destruct (getitem f 0) as [y | e]; [|discriminate Hcmp].
  injection Hcmp as <-. reflexivity.
Qed.

Lemma predict_is_first_of_compare_witness :
  fst (GradioReg.predict_gld_price (of_Z 1400) (of_Z 12) (of_Z 15) (of_Z 1)
         demo_predictor)
  = Ok (fst (of_Z 1483, of_Z 200)).
Proof.
  apply (predict_is_first_of_compare demo_predictor demo_comparator).
  - reflexivity.
  - vm_compute; reflexivity.
Defined.

(** C4, as the spec words it, fails: the frame the functions build has no
    column labelled EURUSD; the fourth number sits under the label
    EUR/USD. *)
Lemma no_column_is_labelled_EURUSD :
  exists X : DataFrame,
    trace (snd (GradioReg.predict_gld_price
                  (of_Z 1400) (of_Z 12) (of_Z 15) (of_Z 1) demo_predictor))
      = [NewDataFrame X; Predict "linear" X] /\
    trace (snd (Comparaison.compare_models
                  (of_Z 1400) (of_Z 12) (of_Z 15) (of_Z 1) demo_comparator))
      = [NewDataFrame X; Predict "linear_regressor" X;
         Predict "forest_regressor" X] /\
    columns X <> ["SPX"; "USO"; "SLV"; "EURUSD"] /\
    loc X 0 "EURUSD" = None /\
    loc X 0 "EUR/USD" = Some (of_Z 1).
Proof.
  exists (features_df (of_Z 1400) (of_Z 12) (of_Z 15) (of_Z 1)).
  repeat split; try (vm_compute; reflexivity).
  intro H. discriminate H.
Qed.

(** C4, amended. Both functions build one frame with the single row of the
    four inputs in the order received, under the labels SPX, USO, SLV and
    EUR/USD in that order, and hand that frame to the model(s); the
    parameter [EURUSD] is the value under the label EUR/USD. *)
Theorem frames_have_fixed_labels :
  forall (w1 : World GradioReg.Globals) (w2 : World Comparaison.Globals)
         (SPX USO SLV EURUSD : pyfloat),
    let X := mkDataFrame ["SPX"; "USO"; "SLV"; "EUR/USD"]
                         [[SPX; USO; SLV; EURUSD]] in
    trace (snd (GradioReg.predict_gld_price SPX USO SLV EURUSD w1)) =
      trace w1 ++ [NewDataFrame X; Predict "linear" X] /\
    (exists calls : list event,
       trace (snd (Comparaison.compare_models SPX USO SLV EURUSD w2)) =
         trace w2 ++ NewDataFrame X :: calls /\
       Forall (fun ev => exists model, ev = Predict model X) calls) /\
    loc X 0 "SPX" = Some SPX /\ loc X 0 "USO" = Some USO /\
    loc X 0 "SLV" = Some SLV /\ loc X 0 "EUR/USD" = Some EURUSD.
Proof.
  intros w1 w2 SPX USO SLV EURUSD X.
  split; [|split].
  - rewrite predict_gld_price_run. reflexivity.
  - rewrite compare_models_run; cbv zeta.
    change (features_df SPX USO SLV EURUSD) with X.
    destruct (answer (Comparaison.linear_regressor (globals w2)) X);
      eexists; (split; [reflexivity|]);
      repeat constructor; eexists; reflexivity.
  - repeat split.
Qed.

(** * Repeated calls *)

Lemma predict_keeps_globals (w : World GradioReg.Globals)
  (SPX USO SLV EURUSD : pyfloat) :
  read_only (GradioReg.linear (globals w)) ->
  globals (snd (GradioReg.predict_gld_price SPX USO SLV EURUSD w))
  = globals w.
Proof.
  intros Hro. rewrite predict_gld_price_run; cbv zeta; simpl.
  rewrite read_only_predict by assumption.
  destruct (globals w); reflexivity.
Qed.

Lemma compare_keeps_globals (w : World Comparaison.Globals)
  (SPX USO SLV EURUSD : pyfloat) :
  read_only (Comparaison.linear_regressor (globals w)) ->
  read_only (Comparaison.forest_regressor (globals w)) ->
  globals (snd (Comparaison.compare_models SPX USO SLV EURUSD w))
  = globals w.
Proof.
  intros Hl Hf. rewrite compare_models_run; cbv zeta.
  destruct (answer (Comparaison.linear_regressor (globals w)) _); simpl;
    repeat rewrite read_only_predict by assumption;
    destruct (globals w); reflexivity.
Qed.

Lemma predict_reads_globals (w w' : World GradioReg.Globals)
  (SPX USO SLV EURUSD : pyfloat) :
  globals w = globals w' ->
  fst (GradioReg.predict_gld_price SPX USO SLV EURUSD w)
  = fst (GradioReg.predict_gld_price SPX USO SLV EURUSD w').
Proof.
  intros H. rewrite !predict_gld_price_run; cbv zeta; simpl.
  rewrite H. reflexivity.
Qed.

Lemma compare_reads_globals (w w' : World Comparaison.Globals)
  (SPX USO SLV EURUSD : pyfloat) :
  globals w = globals w' ->
  fst (Comparaison.compare_models SPX USO SLV EURUSD w)
  = fst (Comparaison.compare_models SPX USO SLV EURUSD w').
Proof.
  intros H. rewrite !compare_models_run; cbv zeta.
  rewrite H.
  destruct (answer (Comparaison.linear_regressor (globals w')) _);
    reflexivity.
Qed.

Lemma after_predict_keeps_globals (history : list request) :
  forall w : World GradioReg.Globals,
    read_only (GradioReg.linear (globals w)) ->
    globals (after GradioReg.predict_gld_price history w) = globals w.
Proof.
  induction history as [| [[[a b] c] d] rest IH]; intros w Hro; simpl.
  - reflexivity.
  - pose proof (predict_keeps_globals w a b c d Hro) as Hstep.
    rewrite IH; [exact Hstep | rewrite Hstep; exact Hro].
Qed.

Lemma after_compare_keeps_globals (history : list request) :
  forall w : World Comparaison.Globals,
    read_only (Comparaison.linear_regressor (globals w)) ->
    read_only (Comparaison.forest_regressor (globals w)) ->
    globals (after Comparaison.compare_models history w) = globals w.
Proof.
  induction history as [| [[[a b] c] d] rest IH]; intros w Hl Hf; simpl.
  - reflexivity.
  - pose proof (compare_keeps_globals w a b c d Hl Hf) as Hstep.
    rewrite IH; [exact Hstep | rewrite Hstep; assumption ..].
Qed.

Lemma stateless_read_only (f : DataFrame -> result ndarray) :
  read_only (stateless f).
Proof. intros s X; reflexivity. Qed.

(** C5. With models whose [predict] does not write to their memory, a call
    leaves the globals of the module as they were, and a later call with
    the same four inputs, whatever was clicked in between, returns the
    same outcome, equal as binary64 values. *)
Theorem repeated_calls_agree :
  forall (w1 : World GradioReg.Globals) (w2 : World Comparaison.Globals)
         (between : list request) (SPX USO SLV EURUSD : pyfloat),
    read_only (GradioReg.linear (globals w1)) ->
    read_only (Comparaison.linear_regressor (globals w2)) ->
    read_only (Comparaison.forest_regressor (globals w2)) ->
    let first1 := GradioReg.predict_gld_price SPX USO SLV EURUSD w1 in
    let later1 := after GradioReg.predict_gld_price between (snd first1) in
    let first2 := Comparaison.compare_models SPX USO SLV EURUSD w2 in
    let later2 := after Comparaison.compare_models between (snd first2) in
    (fst (GradioReg.predict_gld_price SPX USO SLV EURUSD later1) = fst first1
     /\ globals (snd first1) = globals w1) /\
    (fst (Comparaison.compare_models SPX USO SLV EURUSD later2) = fst first2
     /\ globals (snd first2) = globals w2).
Proof.
  intros w1 w2 between SPX USO SLV EURUSD H1 Hl Hf
    first1 later1 first2 later2.
  assert (G1 : globals (snd first1) = globals w1)
    by (apply predict_keeps_globals; exact H1).
  assert (G2 : globals (snd first2) = globals w2)
    by (apply compare_keeps_globals; assumption).
  repeat split; try assumption.
  - apply predict_reads_globals. subst later1.
    rewrite after_predict_keeps_globals; [exact G1 | rewrite G1; exact H1].
  - apply compare_reads_globals. subst later2.
    rewrite after_compare_keeps_globals;
      [exact G2 | rewrite G2; assumption ..].
Qed.

Lemma repeated_calls_agree_witness :
  let first1 :=
    GradioReg.predict_gld_price (of_Z 1) (of_Z 1) (of_Z 1) (of_Z 1)
      demo_predictor in
  let later1 := after GradioReg.predict_gld_price [ones] (snd first1) in
  let first2 :=
    Comparaison.compare_models (of_Z 1) (of_Z 1) (of_Z 1) (of_Z 1)
      demo_comparator in
  let later2 := after Comparaison.compare_models [ones] (snd first2) in
  (fst (GradioReg.predict_gld_price (of_Z 1) (of_Z 1) (of_Z 1) (of_Z 1) later1)
   = fst first1
   /\ globals (snd first1) = globals demo_predictor) /\
  (fst (Comparaison.compare_models (of_Z 1) (of_Z 1) (of_Z 1) (of_Z 1) later2)
   = fst first2
   /\ globals (snd first2) = globals demo_comparator).
Proof.
  apply (repeated_calls_agree demo_predictor demo_comparator [ones]);
    intros s X; reflexivity.
Defined.

(** A model that writes to its memory is outside C5: asked twice for the
    same inputs, the counting model answers 0 and then 1. *)
Example counting_model_differs :
  let first :=
    GradioReg.predict_gld_price (of_Z 1) (of_Z 1) (of_Z 1) (of_Z 1)
      (mkWorld (GradioReg.mkGlobals Counter) []) in
  fst first = Ok (of_Z 0) /\
  fst (GradioReg.predict_gld_price (of_Z 1) (of_Z 1) (of_Z 1) (of_Z 1)
         (snd first)) = Ok (of_Z 1).
Proof. split; vm_compute; reflexivity. Qed.

(** * Finite inputs, well-formed models *)










(** At the all-zero inputs the example models answer their intercept and
    their left leaf. *)
Example all_zero_inputs :
  fst (Comparaison.compare_models (of_Z 0) (of_Z 0) (of_Z 0) (of_Z 0)
         demo_comparator) = Ok (of_Z 10, of_Z 100).
Proof. vm_compute; reflexivity. Qed.

(** * Loading the models *)

Lemma joblib_load_unreadable (fs : filesystem) (path : string) :
  unreadable fs path = true ->
  exists e : exn, joblib_load fs path = Raise e /\ ArtifactLoadError e = true.
Proof.
  unfold unreadable, joblib_load.
  destruct (fs path) as [[a |] |]; intros H; try discriminate H.
  - exists (UnpicklingError path); split; reflexivity.
  - exists (FileNotFoundError path); split; reflexivity.
Qed.

Lemma joblib_load_error (fs : filesystem) (path : string) (e : exn) :
  joblib_load fs path = Raise e -> ArtifactLoadError e = true.
Proof.
  unfold joblib_load.
  destruct (fs path) as [[a |] |]; intros H; try discriminate H;
    injection H as <-; reflexivity.
Qed.

Lemma crashed_is_silent {G R : Type}
  (fn : pyfloat -> pyfloat -> pyfloat -> pyfloat -> M G R) (e : exn)
  (clicks : list request) :
  responses fn (Crashed e) clicks = map (fun _ => None) clicks.
Proof.
  induction clicks as [| req rest IH]; simpl; [reflexivity|].
  rewrite IH; reflexivity.
Qed.

(** C8. When a model file a script names is missing or does not unpickle,
    executing the module raises what [joblib.load] raises, the script dies
    before [main()], and no click is ever answered: for the file of
    gradioReg_app.py, and for either file of Comparaison_app.py. *)
Theorem unreadable_model_is_fatal :
  forall (fs : filesystem) (path : string) (clicks : list request),
    unreadable fs path = true ->
    (path = GradioReg.model_filename ->
     exists e : exn,
       ArtifactLoadError e = true /\
       GradioReg.start fs = Crashed e /\
       responses GradioReg.predict_gld_price (GradioReg.start fs) clicks
       = map (fun _ => None) clicks) /\
    (path = Comparaison.linear_model_filename \/
     path = Comparaison.forest_model_filename ->
     exists e : exn,
       ArtifactLoadError e = true /\
       Comparaison.start fs = Crashed e /\
       responses Comparaison.compare_models (Comparaison.start fs) clicks
       = map (fun _ => None) clicks).
Proof.
  intros fs path clicks Hbad.
  destruct (joblib_load_unreadable fs path Hbad) as (e & Hload & He).
  split.
  - intros ->. exists e.
    unfold GradioReg.start, GradioReg.exec_module. rewrite Hload.
    repeat split; [exact He | apply crashed_is_silent].
  - intros Hpath.
    unfold Comparaison.start, Comparaison.exec_module.
    destruct (joblib_load fs Comparaison.linear_model_filename)
      as [l | e1] eqn:Hlin.
    + destruct Hpath as [-> | ->]; [rewrite Hload in Hlin; discriminate Hlin|].
      rewrite Hload. exists e.
      repeat split; [exact He | apply crashed_is_silent].
    + exists e1.
      repeat split;
        [exact (joblib_load_error _ _ _ Hlin) | apply crashed_is_silent].
Qed.

Lemma unreadable_model_is_fatal_witness :
  ("linear_regression_model.pkl" = GradioReg.model_filename ->
   exists e : exn,
     ArtifactLoadError e = true /\
     GradioReg.start no_files = Crashed e /\
     responses GradioReg.predict_gld_price (GradioReg.start no_files) [ones]
     = map (fun _ => None) [ones]) /\
  ("linear_regression_model.pkl" = Comparaison.linear_model_filename \/
   "linear_regression_model.pkl" = Comparaison.forest_model_filename ->
   exists e : exn,
     ArtifactLoadError e = true /\
     Comparaison.start no_files = Crashed e /\
     responses Comparaison.compare_models (Comparaison.start no_files) [ones]
     = map (fun _ => None) [ones]).
Proof.
  apply (unreadable_model_is_fatal no_files "linear_regression_model.pkl"
           [ones]).
  reflexivity.
Defined.

(** A script serves only with every one of its models loaded. *)
Lemma serving_means_loaded (fs : filesystem) :
  (forall w, GradioReg.start fs = Serving w ->
             unreadable fs GradioReg.model_filename = false) /\
  (forall w, Comparaison.start fs = Serving w ->
             unreadable fs Comparaison.linear_model_filename = false /\
             unreadable fs Comparaison.forest_model_filename = false).
Proof.
  unfold GradioReg.start, GradioReg.exec_module, Comparaison.start,
    Comparaison.exec_module, joblib_load, unreadable.
  change Comparaison.linear_model_filename with GradioReg.model_filename.
  split; intros w.
  - destruct (fs GradioReg.model_filename) as [[a |] |];
      intros H; try discriminate H; reflexivity.
  - destruct (fs GradioReg.model_filename) as [[a |] |];
      try (intros H; discriminate H).
    destruct (fs Comparaison.forest_model_filename) as [[b |] |];
      intros H; try discriminate H; split; reflexivity.
Qed.

(** * The order of assembly *)

Lemma feature_names_NoDup (SPX USO SLV EURUSD : pyfloat) :
  NoDup (map fst (named_inputs SPX USO SLV EURUSD)).
Proof.
  simpl. repeat constructor; simpl; intuition discriminate.
Qed.

(** Reading by label does not see the order of distinct labels. *)
Lemma assoc_Permutation (label : string) (fields fields' : list (string * pyfloat)) :
  Permutation fields fields' ->
  NoDup (map fst fields) ->
  assoc label (map fst fields) (map snd fields)
  = assoc label (map fst fields') (map snd fields').
Proof.
  induction 1 as [| [k v] l l' Hperm IH | [k v] [k' v'] l | l l' l'' H1 IH1 H2 IH2];
    intros Hnd; simpl in *.
  - reflexivity.
  - destruct (String.eqb label k); [reflexivity|].
    apply IH. inversion Hnd; assumption.
  - destruct (String.eqb_spec label k), (String.eqb_spec label k');
      try reflexivity.
    subst k k'. inversion Hnd as [| ? ? Hnotin _]. 
    exfalso; apply Hnotin; left; reflexivity.
  - rewrite IH1 by assumption. apply IH2.
    eapply Permutation_NoDup; [|exact Hnd].
    apply Permutation_map; assumption.
Qed.

Lemma reordered_same_binding (SPX USO SLV EURUSD : pyfloat)
  (fields : list (string * pyfloat)) :
  Permutation (named_inputs SPX USO SLV EURUSD) fields ->
  same_binding (mkDataFrame (map fst fields) [map snd fields])
               (features_df SPX USO SLV EURUSD).
Proof.
  intros Hperm. split; [reflexivity|].
  intros r label. unfold loc; simpl.
  destruct r as [| r]; simpl.
  - symmetry.
    apply (assoc_Permutation label (named_inputs SPX USO SLV EURUSD) fields
             Hperm (feature_names_NoDup SPX USO SLV EURUSD)).
  - destruct r; reflexivity.
Qed.

Lemma by_name_answer (a : Artifact) (X Y : DataFrame) :
  by_name a -> same_binding X Y -> answer a X = answer a Y.
Proof. intros Hbn Hsame. apply Hbn; exact Hsame. Qed.

Lemma reordered_predict_run (fields : list (string * pyfloat))
  (w : World GradioReg.Globals) :
  fst (Reordered.predict_gld_price fields w) =
  match answer (GradioReg.linear (globals w))
               (mkDataFrame (map fst fields) [map snd fields]) with
  | Ok arr => getitem arr 0
  | Raise e => Raise e
  end.
Proof.
  unfold Reordered.predict_gld_price, pd_DataFrame, bind, lift,
    DataFrame_new.
  cbn [forallb]. rewrite !length_map, Nat.eqb_refl.
  unfold call_predict, log, ret, answer, Artifact_predict; simpl.
  destruct (art_predict _ _ _) as [[arr | e] s']; simpl; [|reflexivity].
  destruct (getitem arr 0); reflexivity.
Qed.

Lemma reordered_compare_run (fields : list (string * pyfloat))
  (w : World Comparaison.Globals) :
  fst (Reordered.compare_models fields w) =
  let X := mkDataFrame (map fst fields) [map snd fields] in
  match answer (Comparaison.linear_regressor (globals w)) X with
  | Raise e => Raise e
  | Ok l =>
      match answer (Comparaison.forest_regressor (globals w)) X with
      | Raise e => Raise e
      | Ok f =>
          match getitem l 0 with
          | Raise e => Raise e
          | Ok x =>
              match getitem f 0 with
              | Raise e => Raise e
              | Ok y => Ok (x, y)
              end
          end
      end
  end.
Proof.
  unfold Reordered.compare_models, pd_DataFrame, bind, lift, DataFrame_new.
  cbn [forallb]. rewrite !length_map, Nat.eqb_refl.
  unfold call_predict, log, ret, answer, Artifact_predict; simpl.
  destruct (art_predict (Comparaison.linear_regressor _) _ _)
    as [[l | e] sl]; simpl; [|reflexivity].
  destruct (art_predict (Comparaison.forest_regressor _) _ _)
    as [[f | e] sf]; simpl; [|reflexivity].
  destruct (getitem l 0); simpl; [destruct (getitem f 0)|]; reflexivity.
Qed.

(** With the four inputs in the order of the source, the reordered
    functions are the functions of the source. *)
Lemma reordered_source_order (SPX USO SLV EURUSD : pyfloat) :
  Reordered.predict_gld_price (named_inputs SPX USO SLV EURUSD)
  = GradioReg.predict_gld_price SPX USO SLV EURUSD /\
  Reordered.compare_models (named_inputs SPX USO SLV EURUSD)
  = Comparaison.compare_models SPX USO SLV EURUSD.
Proof. split; reflexivity. Qed.

(** C9, as the spec words it, fails: the models receive the frame as it was
    assembled, and a model that reads the row by position answers 39
    instead of 40 when USO is assembled before SPX, although every label
    still carries its own value. *)
Lemma assembly_order_changes_result :
  Permutation (named_inputs (of_Z 1) (of_Z 2) (of_Z 3) (of_Z 4)) uso_first /\
  same_binding (mkDataFrame (map fst uso_first) [map snd uso_first])
               (features_df (of_Z 1) (of_Z 2) (of_Z 3) (of_Z 4)) /\
  fst (GradioReg.predict_gld_price (of_Z 1) (of_Z 2) (of_Z 3) (of_Z 4)
         demo_predictor) = Ok (of_Z 40) /\
  fst (Reordered.predict_gld_price uso_first demo_predictor) = Ok (of_Z 39) /\
  fst (Comparaison.compare_models (of_Z 1) (of_Z 2) (of_Z 3) (of_Z 4)
         demo_comparator) = Ok (of_Z 40, of_Z 100) /\
  fst (Reordered.compare_models uso_first demo_comparator)
  = Ok (of_Z 39, of_Z 100) /\
  fst (Reordered.predict_gld_price uso_first demo_predictor)
  <> fst (GradioReg.predict_gld_price (of_Z 1) (of_Z 2) (of_Z 3) (of_Z 4)
            demo_predictor) /\
  fst (Reordered.compare_models uso_first demo_comparator)
  <> fst (Comparaison.compare_models (of_Z 1) (of_Z 2) (of_Z 3) (of_Z 4)
            demo_comparator).
Proof.
  assert (Hperm : Permutation
                    (named_inputs (of_Z 1) (of_Z 2) (of_Z 3) (of_Z 4))
                    uso_first) by apply perm_swap.
  split; [exact Hperm|].
  split; [apply reordered_same_binding; exact Hperm|].
  repeat split; try (vm_compute; reflexivity);
    vm_compute; intro H; discriminate H.
Qed.

Lemma predict_rows_ext (f g : nat -> option pyfloat) (n : nat) :
  forall r : nat,
    (forall i, f i = g i) -> predict_rows f r n = predict_rows g r n.
Proof.
  induction n as [| n IH]; intros r Hfg; simpl.
  - reflexivity.
  - rewrite Hfg, (IH (S r) Hfg). reflexivity.
Qed.

Lemma dot_named_assoc (coef : list (string * pyfloat))
  (cols cols' : list string) (row row' : list pyfloat) :
  (forall label, assoc label cols row = assoc label cols' row') ->
  dot_named coef cols row = dot_named coef cols' row'.
Proof.
  intros H. induction coef as [| [label c] coef IH]; simpl.
  - reflexivity.
  - rewrite H, IH. reflexivity.
Qed.

Lemma LabelledRegression_by_name (coef : list (string * pyfloat))
  (intercept : pyfloat) :
  by_name (LabelledRegression coef intercept).
Proof.
  intros s X Y [Hlen Hloc]. simpl.
  rewrite Hlen.
  rewrite (predict_rows_ext _
             (fun r => match nth_error (values Y) r with
                       | Some row =>
                           match dot_named coef (columns Y) row with
                           | Some d => Some (fadd d intercept)
                           | None => None
                           end
                       | None => None
                       end)); [reflexivity|].
  intros i. pose proof (Hloc i) as Hi. unfold loc in Hi.
  destruct (nth_error (values X) i) as [row |] eqn:HX;
    destruct (nth_error (values Y) i) as [row' |] eqn:HY.
  - rewrite (dot_named_assoc coef _ (columns Y) row row' Hi). reflexivity.
  - exfalso. apply nth_error_None in HY.
    assert (i < List.length (values X)) by (apply nth_error_Some; congruence).
    lia.
  - exfalso. apply nth_error_None in HX.
    assert (i < List.length (values Y)) by (apply nth_error_Some; congruence).
    lia.
  - reflexivity.
Qed.

(** C9, amended. With models that read their input by label only,
    assembling the four labelled inputs in any other order leaves the
    outcome of both functions as it is in the order of the source. *)
Theorem assembly_order_by_name :
  forall (w1 : World GradioReg.Globals) (w2 : World Comparaison.Globals)
         (SPX USO SLV EURUSD : pyfloat) (fields : list (string * pyfloat)),
    Permutation (named_inputs SPX USO SLV EURUSD) fields ->
    by_name (GradioReg.linear (globals w1)) ->
    by_name (Comparaison.linear_regressor (globals w2)) ->
    by_name (Comparaison.forest_regressor (globals w2)) ->
    fst (Reordered.predict_gld_price fields w1)
    = fst (GradioReg.predict_gld_price SPX USO SLV EURUSD w1) /\
    fst (Reordered.compare_models fields w2)
    = fst (Comparaison.compare_models SPX USO SLV EURUSD w2).
Proof.
  intros w1 w2 SPX USO SLV EURUSD fields Hperm B1 Bl Bf.
  pose proof (reordered_same_binding SPX USO SLV EURUSD fields Hperm)
    as Hsame.
  split.
  - rewrite reordered_predict_run, predict_gld_price_run; cbv zeta; simpl.
    rewrite (by_name_answer _ _ _ B1 Hsame). reflexivity.
  - rewrite reordered_compare_run, compare_models_run; cbv zeta.
    rewrite (by_name_answer _ _ _ Bl Hsame), (by_name_answer _ _ _ Bf Hsame).
    destruct (answer (Comparaison.linear_regressor (globals w2)) _);
      reflexivity.
Qed.

Lemma assembly_order_by_name_witness :
  fst (Reordered.predict_gld_price uso_first
         (mkWorld (GradioReg.mkGlobals labelled_linear) []))
  = fst (GradioReg.predict_gld_price (of_Z 1) (of_Z 2) (of_Z 3) (of_Z 4)
           (mkWorld (GradioReg.mkGlobals labelled_linear) [])) /\
  fst (Reordered.compare_models uso_first
         (mkWorld (Comparaison.mkGlobals labelled_linear labelled_other) []))
  = fst (Comparaison.compare_models (of_Z 1) (of_Z 2) (of_Z 3) (of_Z 4)
           (mkWorld (Comparaison.mkGlobals labelled_linear labelled_other)
              [])).
Proof.
  apply (assembly_order_by_name
           (mkWorld (GradioReg.mkGlobals labelled_linear) [])
           (mkWorld (Comparaison.mkGlobals labelled_linear labelled_other) [])
           (of_Z 1) (of_Z 2) (of_Z 3) (of_Z 4) uso_first).
  - apply perm_swap.
  - apply LabelledRegression_by_name.
  - apply LabelledRegression_by_name.
  - apply LabelledRegression_by_name.
Defined.

Example labelled_model_answers :
  fst (Reordered.predict_gld_price uso_first
         (mkWorld (GradioReg.mkGlobals labelled_linear) []))
  = Ok (of_Z 40).
Proof. vm_compute; reflexivity. Qed.

(** * More on the two functions *)

Lemma frames_built_app (tr tr' : list event) :
  frames_built (tr ++ tr') = frames_built tr + frames_built tr'.
Proof.
  induction tr as [| [df | model X] rest IH]; simpl;
    [reflexivity | rewrite IH; reflexivity | exact IH].
Qed.

Lemma calls_to_app (name : string) (tr tr' : list event) :
  calls_to name (tr ++ tr') = calls_to name tr + calls_to name tr'.
Proof.
  induction tr as [| [df | model X] rest IH]; simpl.
  - reflexivity.
  - exact IH.
  - destruct (String.eqb model name); simpl; rewrite IH; reflexivity.
Qed.

(** X1. An exception raised by the model's [predict] leaves
    [predict_gld_price] as it is, after one frame and one call; and when
    the linear model answered, an exception raised by the forest model
    leaves [compare_models] as it is, after one frame and both calls. *)
Theorem model_exception_is_propagated :
  forall (w1 : World GradioReg.Globals) (w2 : World Comparaison.Globals)
         (SPX USO SLV EURUSD : pyfloat) (l : ndarray) (e1 e2 : exn),
    let X := features_df SPX USO SLV EURUSD in
    answer (GradioReg.linear (globals w1)) X = Raise e1 ->
    answer (Comparaison.linear_regressor (globals w2)) X = Ok l ->
    answer (Comparaison.forest_regressor (globals w2)) X = Raise e2 ->
    (fst (GradioReg.predict_gld_price SPX USO SLV EURUSD w1) = Raise e1 /\
     trace (snd (GradioReg.predict_gld_price SPX USO SLV EURUSD w1)) =
       trace w1 ++ [NewDataFrame X; Predict "linear" X]) /\
    (fst (Comparaison.compare_models SPX USO SLV EURUSD w2) = Raise e2 /\
     trace (snd (Comparaison.compare_models SPX USO SLV EURUSD w2)) =
       trace w2 ++ [NewDataFrame X; Predict "linear_regressor" X;
                    Predict "forest_regressor" X]).
Proof.
  intros w1 w2 SPX USO SLV EURUSD l e1 e2 X H1 Hl Hf.
  rewrite predict_gld_price_run, compare_models_run; cbv zeta.
  fold X. rewrite H1, Hl, Hf. repeat split.
Qed.

Lemma model_exception_is_propagated_witness :
  let X := features_df (of_Z 1) (of_Z 1) (of_Z 1) (of_Z 1) in
  let w1 := mkWorld (GradioReg.mkGlobals (Broken (ValueError "nan"))) [] in
  let w2 := mkWorld (Comparaison.mkGlobals demo_linear
                       (Broken (ModelError "not fitted"))) [] in
  (fst (GradioReg.predict_gld_price (of_Z 1) (of_Z 1) (of_Z 1) (of_Z 1) w1)
   = Raise (ValueError "nan") /\
   trace (snd (GradioReg.predict_gld_price
                 (of_Z 1) (of_Z 1) (of_Z 1) (of_Z 1) w1)) =
     trace w1 ++ [NewDataFrame X; Predict "linear" X]) /\
  (fst (Comparaison.compare_models (of_Z 1) (of_Z 1) (of_Z 1) (of_Z 1) w2)
   = Raise (ModelError "not fitted") /\
   trace (snd (Comparaison.compare_models
                 (of_Z 1) (of_Z 1) (of_Z 1) (of_Z 1) w2)) =
     trace w2 ++ [NewDataFrame X; Predict "linear_regressor" X;
                  Predict "forest_regressor" X]).
Proof.
  intros X w1 w2.
  apply (model_exception_is_propagated w1 w2 (of_Z 1) (of_Z 1) (of_Z 1)
           (of_Z 1) [of_Z 20]).
  - reflexivity.
  - vm_compute; reflexivity.
  - reflexivity.
Defined.

(** X2. An empty answer of the linear model makes [compare_models] raise
    [IndexError], but only at the [return]: the forest model has been
    called by then.  An empty answer of the forest model raises
    [IndexError] as well. *)
Theorem empty_answer_is_IndexError :
  forall (w : World Comparaison.Globals) (SPX USO SLV EURUSD : pyfloat)
         (l f : ndarray),
    let X := features_df SPX USO SLV EURUSD in
    let out := Comparaison.compare_models SPX USO SLV EURUSD w in
    answer (Comparaison.linear_regressor (globals w)) X = Ok l ->
    answer (Comparaison.forest_regressor (globals w)) X = Ok f ->
    l = [] \/ f = [] ->
    fst out = Raise (IndexError "index out of bounds") /\
    calls_to "forest_regressor" (trace (snd out))
    = S (calls_to "forest_regressor" (trace w)).
Proof.
  intros w SPX USO SLV EURUSD l f X out Hl Hf Hempty. subst out.
  rewrite compare_models_run; cbv zeta. fold X. rewrite Hl, Hf. simpl.
  split.
  - destruct Hempty as [-> | ->]; [reflexivity|].
    destruct l; reflexivity.
  - rewrite calls_to_app. simpl. lia.
Qed.

Lemma empty_answer_is_IndexError_witness :
  let w := mkWorld (Comparaison.mkGlobals Silent demo_forest) [] in
  let out := Comparaison.compare_models (of_Z 1) (of_Z 1) (of_Z 1) (of_Z 1) w in
  fst out = Raise (IndexError "index out of bounds") /\
  calls_to "forest_regressor" (trace (snd out))
  = S (calls_to "forest_regressor" (trace w)).
Proof.
  intros w out.
  apply (empty_answer_is_IndexError w (of_Z 1) (of_Z 1) (of_Z 1) (of_Z 1)
           [] [of_Z 100]).
  - reflexivity.
  - vm_compute; reflexivity.
  - left; reflexivity.
Defined.

(** X3. Over any sequence of clicks, [predict_gld_price] builds one frame
    and calls the model once per click, whatever the outcomes. *)
Theorem predictor_one_call_per_click :
  forall (history : list request) (w : World GradioReg.Globals),
    let w' := after GradioReg.predict_gld_price history w in
    frames_built (trace w') = frames_built (trace w) + List.length history /\
    calls_to "linear" (trace w')
    = calls_to "linear" (trace w) + List.length history /\
    List.length (trace w') = List.length (trace w) + 2 * List.length history.
Proof.
  induction history as [| [[[a b] c] d] rest IH]; intros w; simpl.
  - repeat split; lia.
  - specialize (IH (snd (GradioReg.predict_gld_price a b c d w))).
    cbv zeta in IH. destruct IH as (IH1 & IH2 & IH3).
    rewrite IH1, IH2, IH3.
    rewrite predict_gld_price_run; cbv zeta; simpl.
    rewrite frames_built_app, calls_to_app, length_app; simpl.
    repeat split; lia.
Qed.

(** X4. Over any sequence of clicks, [compare_models] builds one frame and
    calls the linear model once per click, whatever the outcomes; the
    forest model is called at most once per click. *)
Theorem comparator_calls_per_click :
  forall (history : list request) (w : World Comparaison.Globals),
    let w' := after Comparaison.compare_models history w in
    frames_built (trace w') = frames_built (trace w) + List.length history /\
    calls_to "linear_regressor" (trace w')
    = calls_to "linear_regressor" (trace w) + List.length history /\
    calls_to "forest_regressor" (trace w')
    <= calls_to "forest_regressor" (trace w) + List.length history.
Proof.
  induction history as [| [[[a b] c] d] rest IH]; intros w; simpl.
  - repeat split; lia.
  - specialize (IH (snd (Comparaison.compare_models a b c d w))).
    cbv zeta in IH. destruct IH as (IH1 & IH2 & IH3).
    rewrite IH1, IH2.
    rewrite compare_models_run in *; cbv zeta in *.
    destruct (answer (Comparaison.linear_regressor (globals w)) _);
      simpl in *;
      rewrite ?frames_built_app, ?calls_to_app in *; simpl in *;
      repeat split; lia.
Qed.

(** X5. A store on which Comparaison_app.py starts is a store on which
    gradioReg_app.py starts, with the same linear model; the predictor
    serves exactly when its one file unpickles, the comparator exactly
    when both of its files do. *)
Theorem comparator_start_implies_predictor_start :
  forall fs : filesystem,
    (forall w2, Comparaison.start fs = Serving w2 ->
       GradioReg.start fs =
       Serving (mkWorld (GradioReg.mkGlobals
                           (Comparaison.linear_regressor (globals w2))) [])) /\
    ((exists w1, GradioReg.start fs = Serving w1) <->
     unreadable fs GradioReg.model_filename = false) /\
    ((exists w2, Comparaison.start fs = Serving w2) <->
     unreadable fs Comparaison.linear_model_filename = false /\
     unreadable fs Comparaison.forest_model_filename = false).
Proof.
  intros fs.
  unfold GradioReg.start, GradioReg.exec_module, Comparaison.start,
    Comparaison.exec_module, joblib_load, unreadable.
  change Comparaison.linear_model_filename with GradioReg.model_filename.
  destruct (fs GradioReg.model_filename) as [[a |] |];
    destruct (fs Comparaison.forest_model_filename) as [[b |] |];
    (split; [intros w2 H; try discriminate H; injection H as <-; reflexivity|]);
    (split; split);
    try (intros [w H]; discriminate H);
    try (intros [H1 H2]; discriminate);
    try (intros H; discriminate H);
    intros; try solve [eexists; reflexivity]; try (split; reflexivity);
    reflexivity.
Qed.

(** * gradio: the constructor of [Interface] *)

(** X6. When [Interface.__init__] accepts its [inputs] and [outputs], the
    kind of interface it records says which list is empty: input-only
    exactly when there are no outputs, output-only exactly when there are
    no inputs, standard exactly when there are both; the two lists are
    never both empty. *)
Theorem interface_type_matches_lists :
  forall (C : Type) (inputs outputs additional_inputs : Interface.io_arg C)
         (t : Interface.InterfaceTypes)
         (ins outs adds : list (Interface.item C)),
    Interface.normalize_io inputs outputs additional_inputs
    = Returned (t, ins, outs, adds) ->
    (t = Interface.INPUT_ONLY <-> outs = []) /\
    (t = Interface.OUTPUT_ONLY <-> ins = []) /\
    (t = Interface.STANDARD <-> ins <> [] /\ outs <> []) /\
    t <> Interface.UNIFIED.
Proof.
  intros C inputs outputs additional_inputs t ins outs adds.
  unfold Interface.normalize_io.
  destruct inputs as [| s | c | [| i l] |];
    destruct outputs as [| s' | c' | [| o l'] |]; simpl;
    intros H; try discriminate H;
    injection H as <- <- <- _;
    repeat split; intros; try discriminate; try congruence;
    try (destruct H as [H1 H2]; congruence);
    try (exfalso; intuition congruence).
Qed.

Lemma interface_type_matches_lists_witness :
  (Interface.OUTPUT_ONLY = Interface.INPUT_ONLY
   <-> [Interface.Shortcut (C := unit) "label"] = []) /\
  (Interface.OUTPUT_ONLY = Interface.OUTPUT_ONLY
   <-> @nil (Interface.item unit) = []) /\
  (Interface.OUTPUT_ONLY = Interface.STANDARD
   <-> @nil (Interface.item unit) <> []
       /\ [Interface.Shortcut (C := unit) "label"] <> []) /\
  Interface.OUTPUT_ONLY <> Interface.UNIFIED.
Proof.
  apply (interface_type_matches_lists unit Interface.ArgNone
           (Interface.ArgStr "label") Interface.ArgNone
           Interface.OUTPUT_ONLY [] [Interface.Shortcut "label"] []).
  reflexivity.
Defined.

(** X7. [Interface.__init__] refuses [inputs] and [outputs] exactly when
    both are [None] or the empty list, with a [ValueError]; otherwise it
    raises a [TypeError] exactly when one of them is neither [None], a
    string, a list nor a component. *)
Theorem normalize_io_errors :
  forall (C : Type) (inputs outputs additional_inputs : Interface.io_arg C),
    ((exists msg,
        Interface.normalize_io inputs outputs additional_inputs
        = Raised (GrValueError msg))
     <-> Interface.none_or_empty inputs = true
         /\ Interface.none_or_empty outputs = true) /\
    ((exists msg,
        Interface.normalize_io inputs outputs additional_inputs
        = Raised (GrTypeError msg))
     <-> inputs = Interface.ArgOther \/ outputs = Interface.ArgOther).
Proof.
  intros C inputs outputs additional_inputs.
  unfold Interface.normalize_io.
  destruct inputs as [| s | c | [| i l] |];
    destruct outputs as [| s' | c' | [| o l'] |]; simpl;
    (split; split);
    try (intros [msg H]; discriminate H);
    try (intros [H1 H2]; discriminate);
    try (intros [H | H]; discriminate H);
    intros; try solve [eexists; reflexivity]; try (split; reflexivity);
    try (left; reflexivity); try (right; reflexivity).
Qed.

Lemma set_nth_length {A : Type} (l : list A) (x : A) :
  forall i : nat, List.length (set_nth l i x) = List.length l.
Proof.
  induction l as [| y rest IH]; intros [| i]; simpl; try reflexivity.
  rewrite IH; reflexivity.
Qed.

Lemma set_nth_same {A : Type} (l : list A) (x : A) :
  forall i : nat, i < List.length l -> nth_error (set_nth l i x) i = Some x.
Proof.
  induction l as [| y rest IH]; intros [| i] H; simpl in *; try lia.
  - reflexivity.
  - apply IH; lia.
Qed.

Lemma enumerate_from_filter {A : Type} (f : A -> bool) (l : list A) :
  forall (k i : nat),
    In i (map fst (filter (fun p => f (snd p)) (enumerate_from k l))) ->
    k <= i /\ exists x, nth_error l (i - k) = Some x /\ f x = true.
Proof.
  induction l as [| y rest IH]; intros k i Hin; simpl in *.
  - contradiction.
  - destruct (f y) eqn:Hy; simpl in Hin.
    + destruct Hin as [<- | Hin].
      * split; [lia|]. exists y. rewrite Nat.sub_diag. split; [reflexivity | exact Hy].
      * destruct (IH (S k) i Hin) as (Hle & x & Hx & Hfx).
        split; [lia|]. exists x.
        replace (i - k) with (S (i - S k)) by lia. split; assumption.
    + destruct (IH (S k) i Hin) as (Hle & x & Hx & Hfx).
      split; [lia|]. exists x.
      replace (i - k) with (S (i - S k)) by lia. split; assumption.
Qed.

Lemma state_index_in_range {C : Type} (is_State : C -> bool)
  (l : list (Interface.item C)) (i : nat) :
  In i (Interface.state_indexes is_State l) ->
  exists x, nth_error l i = Some x /\ Interface.is_state_item is_State x = true.
Proof.
  intros Hin. unfold Interface.state_indexes, enumerate in Hin.
  destruct (enumerate_from_filter _ _ _ _ Hin) as (_ & x & Hx & Hfx).
  rewrite Nat.sub_0_r in Hx. exists x; split; assumption.
Qed.

(** X8. When [Interface.__init__] accepts lists that use state, the state
    input and the state output have become one and the same component;
    lists without state are left as they are, and no list changes its
    length. *)
Theorem state_is_shared :
  forall (C : Type) (is_State : C -> bool) (State_of_default : nat -> res C)
         (inputs outputs ins outs : list (Interface.item C)),
    Interface.link_state is_State State_of_default inputs outputs
    = Returned (ins, outs) ->
    List.length ins = List.length inputs /\
    List.length outs = List.length outputs /\
    (Interface.state_indexes is_State inputs = [] /\
     Interface.state_indexes is_State outputs = [] /\
     ins = inputs /\ outs = outputs
     \/
     exists (i o : nat) (state_variable : Interface.item C),
       Interface.state_indexes is_State inputs = [i] /\
       Interface.state_indexes is_State outputs = [o] /\
       nth_error ins i = Some state_variable /\
       nth_error outs o = Some state_variable).
Proof.
  intros C is_State State_of_default inputs outputs ins outs.
  unfold Interface.link_state.
  destruct (Interface.state_indexes is_State inputs) as [| i [| i' si]] eqn:Hi;
    destruct (Interface.state_indexes is_State outputs) as [| o [| o' so]] eqn:Ho;
    try discriminate.
  - intros H; injection H as <- <-. repeat split. left. repeat split.
  - destruct (state_index_in_range is_State inputs i) as (x & Hx & _);
      [rewrite Hi; left; reflexivity|].
    destruct (state_index_in_range is_State outputs o) as (y & Hy & _);
      [rewrite Ho; left; reflexivity|].
    rewrite Hx.
    assert (Hilt : i < List.length inputs)
      by (apply nth_error_Some; congruence).
    assert (Holt : o < List.length outputs)
      by (apply nth_error_Some; congruence).
    match goal with
    | |- match ?sv with _ => _ end = _ -> _ =>
        destruct sv as [v | e] eqn:Hv; [|discriminate]
    end.
    intros H; injection H as <- <-.
    rewrite !set_nth_length. repeat split.
    right. exists i, o, v. repeat split; apply set_nth_same; assumption.
Qed.

Lemma state_is_shared_witness :
  let is_State := fun c : nat => Nat.eqb c 0 in
  let inputs := [Interface.Shortcut "text"; Interface.Shortcut "state"] in
  let outputs := [Interface.Instance 0; Interface.Shortcut "label"] in
  let ins := [Interface.Shortcut "text"; Interface.Instance 7] in
  let outs := [Interface.Instance 7; Interface.Shortcut "label"] in
  List.length ins = List.length inputs /\
  List.length outs = List.length outputs /\
  (Interface.state_indexes is_State inputs = [] /\
   Interface.state_indexes is_State outputs = [] /\
   ins = inputs /\ outs = outputs
   \/
   exists (i o : nat) (state_variable : Interface.item nat),
     Interface.state_indexes is_State inputs = [i] /\
     Interface.state_indexes is_State outputs = [o] /\
     nth_error ins i = Some state_variable /\
     nth_error outs o = Some state_variable).
Proof.
  intros is_State inputs outputs ins outs.
  apply (state_is_shared nat is_State (fun _ => Returned 7) inputs outputs).
  reflexivity.
Defined.

(** X9. [Interface.__init__] raises a [ValueError] when the numbers of
    state inputs and state outputs differ, or when there are two or more
    of each. *)
Theorem state_must_be_paired :
  forall (C : Type) (is_State : C -> bool) (State_of_default : nat -> res C)
         (inputs outputs : list (Interface.item C)),
    List.length (Interface.state_indexes is_State inputs)
    <> List.length (Interface.state_indexes is_State outputs)
    \/ 2 <= List.length (Interface.state_indexes is_State inputs) ->
    Interface.link_state is_State State_of_default inputs outputs
    = Raised (GrValueError
        "If using 'state', there must be exactly one state input and one state output.").
Proof.
  intros C is_State State_of_default inputs outputs.
  unfold Interface.link_state.
  destruct (Interface.state_indexes is_State inputs) as [| i [| i' si]];
    destruct (Interface.state_indexes is_State outputs) as [| o [| o' so]];
    simpl; intros [H | H]; try reflexivity; try lia; congruence.
Qed.

Lemma state_must_be_paired_witness :
  Interface.link_state (fun c : nat => Nat.eqb c 0) (fun _ => Returned 7)
    [Interface.Shortcut "state"] [Interface.Shortcut "label"]
  = Raised (GrValueError
      "If using 'state', there must be exactly one state input and one state output.").
Proof.
  apply state_must_be_paired. left. simpl. lia.
Defined.

(** X10. Whatever [Interface.__init__] keeps in [self.allow_flagging] is
    one of "manual", "never", "auto"; the environment variable
    GRADIO_ALLOW_FLAGGING is read only when the parameter is [None], and
    the warning is issued exactly for a boolean parameter. *)
Theorem allow_flagging_is_normalized :
  forall (a : Interface.flagging_arg) (env : option string),
    (forall s warned,
       Interface.normalize_allow_flagging a env = Returned (s, warned) ->
       (s = "manual" \/ s = "never" \/ s = "auto") /\
       (warned = true <-> exists b, a = Interface.FlagBool b)) /\
    (a <> Interface.FlagNone ->
     Interface.normalize_allow_flagging a env
     = Interface.normalize_allow_flagging a None) /\
    Interface.normalize_allow_flagging Interface.FlagNone None
    = Returned ("manual", false).
Proof.
  intros a env. split; [|split].
  - intros s warned. unfold Interface.normalize_allow_flagging.
    destruct a as [| [|] | v |]; simpl;
      try (intros H; discriminate H);
      try (intros H; injection H as <- <-; split;
           [auto | split; [intros _; eexists; reflexivity | reflexivity]]).
    + destruct env as [v |]; simpl.
      * destruct (String.eqb v "manual");
          [|destruct (String.eqb v "never");
            [|destruct (String.eqb v "auto")]];
          intros H; try discriminate H; injection H as <- <-;
          (split; [auto | split; [discriminate | intros [b Hb]; discriminate Hb]]).
      * intros H; injection H as <- <-.
        split; [auto | split; [discriminate | intros [b Hb]; discriminate Hb]].
    + destruct (String.eqb v "manual");
        [|destruct (String.eqb v "never");
          [|destruct (String.eqb v "auto")]];
        intros H; try discriminate H; injection H as <- <-;
        (split; [auto | split; [discriminate | intros [b Hb]; discriminate Hb]]).
  - intros Ha. destruct a; try reflexivity. congruence.
  - reflexivity.
Qed.

(** X11. An environment value, or a parameter string, other than the three
    words makes [Interface.__init__] raise a [ValueError]. *)
Theorem allow_flagging_rejects_other_words :
  forall (v : string) (env : option string),
    v <> "manual" -> v <> "never" -> v <> "auto" ->
    (exists msg,
       Interface.normalize_allow_flagging (Interface.FlagStr v) env
       = Raised (GrValueError msg)) /\
    (exists msg,
       Interface.normalize_allow_flagging Interface.FlagNone (Some v)
       = Raised (GrValueError msg)).
Proof.
  intros v env H1 H2 H3. unfold Interface.normalize_allow_flagging.
  apply String.eqb_neq in H1, H2, H3. rewrite H1, H2, H3.
  split; eexists; reflexivity.
Qed.

Lemma allow_flagging_rejects_other_words_witness :
  (exists msg,
     Interface.normalize_allow_flagging (Interface.FlagStr "true") None
     = Raised (GrValueError msg)) /\
  (exists msg,
     Interface.normalize_allow_flagging Interface.FlagNone (Some "true")
     = Raised (GrValueError msg)).
Proof.
  apply allow_flagging_rejects_other_words; intro H; discriminate H.
Defined.

Lemma flat_map_OptStr (xs : list string) :
  flat_map (fun x => match x with
                     | Interface.OptStr x =>
                         [(("Flag as " ++ x)%string, Interface.StrValue x)]
                     | _ => []
                     end) (map Interface.OptStr xs)
  = map (fun x => (("Flag as " ++ x)%string, Interface.StrValue x)) xs.
Proof.
  induction xs as [| x rest IH]; [reflexivity|].
  cbn [map flat_map]. rewrite IH. reflexivity.
Qed.

Lemma flat_map_OptTuple (ts : list (string * Interface.option_value)) :
  flat_map (fun x => match x with
                     | Interface.OptTuple label value => [(label, value)]
                     | _ => []
                     end)
           (map (fun t => Interface.OptTuple (fst t) (snd t)) ts)
  = ts.
Proof.
  induction ts as [| [l v] rest IH]; [reflexivity|].
  cbn [map flat_map]. rewrite IH. reflexivity.
Qed.

Lemma forallb_OptStr (xs : list string) :
  forallb Interface.is_OptStr (map Interface.OptStr xs) = true.
Proof. induction xs; simpl; auto. Qed.

Lemma forallb_OptTuple (ts : list (string * Interface.option_value)) :
  forallb Interface.is_OptTuple
    (map (fun t => Interface.OptTuple (fst t) (snd t)) ts) = true.
Proof. induction ts; simpl; auto. Qed.

(** X12. A list of strings given as [flagging_options] becomes one option
    per string, labelled "Flag as " followed by the string and storing the
    string; a list of pairs is kept as it is, except that the empty list
    counts as a list of strings; the default is the single option labelled
    "Flag" that stores the empty string. *)
Theorem flagging_options_are_pairs :
  forall (xs : list string) (ts : list (string * Interface.option_value)),
    Interface.normalize_flagging_options
      (Interface.OptionsList (map Interface.OptStr xs))
    = Returned (map (fun x => (("Flag as " ++ x)%string, Interface.StrValue x))
                    xs) /\
    Interface.normalize_flagging_options
      (Interface.OptionsList
         (map (fun t => Interface.OptTuple (fst t) (snd t)) ts))
    = Returned ts /\
    Interface.normalize_flagging_options Interface.OptionsNone
    = Returned [("Flag", Interface.StrValue "")].
Proof.
  intros xs ts. unfold Interface.normalize_flagging_options.
  repeat split.
  - rewrite forallb_OptStr, flat_map_OptStr. reflexivity.
  - destruct ts as [| t rest]; [reflexivity|].
    change (map (fun t => Interface.OptTuple (fst t) (snd t)) (t :: rest))
      with (Interface.OptTuple (fst t) (snd t)
            :: map (fun t => Interface.OptTuple (fst t) (snd t)) rest).
    cbn [forallb Interface.is_OptStr andb].
    change (Interface.OptTuple (fst t) (snd t)
            :: map (fun t => Interface.OptTuple (fst t) (snd t)) rest)
      with (map (fun t => Interface.OptTuple (fst t) (snd t)) (t :: rest)).
    rewrite forallb_OptTuple, flat_map_OptTuple. reflexivity.
Qed.

(** X13. [Interface.__init__] accepts a [flagging_options] list only when
    its elements are all strings or all pairs, and then keeps as many
    options as the list has elements. *)
Theorem flagging_options_are_uniform :
  forall (l : list Interface.option_item)
         (opts : list (string * Interface.option_value)),
    Interface.normalize_flagging_options (Interface.OptionsList l)
    = Returned opts ->
    List.length opts = List.length l /\
    (forallb Interface.is_OptStr l = true
     \/ forallb Interface.is_OptTuple l = true).
Proof.
  intros l opts. unfold Interface.normalize_flagging_options.
  destruct (forallb Interface.is_OptStr l) eqn:Hs.
  - intros H; injection H as <-. split; [|left; reflexivity].
    clear -Hs. induction l as [| [x | lb v |] rest IH]; simpl in *;
      try discriminate; [reflexivity | rewrite IH by assumption; reflexivity].
  - destruct (forallb Interface.is_OptTuple l) eqn:Ht; [|discriminate].
    intros H; injection H as <-. split; [|right; reflexivity].
    clear -Ht. induction l as [| [x | lb v |] rest IH]; simpl in *;
      try discriminate; [reflexivity | rewrite IH by assumption; reflexivity].
Qed.

Lemma flagging_options_are_uniform_witness :
  List.length [(("Flag as " ++ "wrong")%string, Interface.StrValue "wrong")]
  = List.length [Interface.OptStr "wrong"] /\
  (forallb Interface.is_OptStr [Interface.OptStr "wrong"] = true
   \/ forallb Interface.is_OptTuple [Interface.OptStr "wrong"] = true).
Proof.
  apply (flagging_options_are_uniform [Interface.OptStr "wrong"]).
  reflexivity.
Defined.


















(** In a unified interface the one component is input and output: it is
    named after the parameter, not "output". *)
Example unified_component_keeps_parameter_name :
  snd (Interface.name_components (fun _ => true) [1] [1] ["text"]
         (fun _ => None)) 1 = Some "text"
  /\ snd (Interface.name_components (fun _ => true) [1] [2] ["text"]
            (fun _ => None)) 2 = Some "output"
  /\ snd (Interface.name_components (fun _ => true) [1; 2] [3; 1; 4] ["a"]
            (fun _ => None)) 4 = Some "output 2"
  /\ fst (Interface.name_components (fun c => negb (Nat.eqb c 4)) [1; 2]
            [3; 1; 4] ["a"] (fun _ => None))
     = Some (GrTypeError "Output component must be a Component").
Proof. repeat split; vm_compute; reflexivity. Qed.

(** * gradio: the buttons and events of [Interface] *)

Section RenderFacts.
Context {C : Type}.
Variable is_State : C -> bool.
Variable render_components : list C -> res unit.

Lemma bind_flag_buttons_spec (comps : list C)
  (opts : list (string * Interface.option_value)) :
  forall bs : list (@Interface.FlagBinding C),
    Interface.bind_flag_buttons comps
      (zip (map (fun o => Interface.FlagButton (fst o)) opts) opts)
    = Returned bs ->
    Forall (fun b => Interface.flag_inputs b = comps) bs /\
    map (fun b => (Interface.flag_button b,
                   (Interface.flag_label b,
                    Interface.StrValue (Interface.flag_value b)))) bs
    = map (fun o => (Interface.FlagButton (fst o), o)) opts.
Proof.
  induction opts as [| [label [v |]] rest IH]; intros bs; simpl.
  - intros H; injection H as <-. split; constructor.
  - destruct (Interface.bind_flag_buttons comps _) as [bs' | e] eqn:Hrest;
      simpl; [|discriminate].
    intros H; injection H as <-.
    destruct (IH bs' eq_refl) as [Hall Hmap].
    split; [constructor; [reflexivity | exact Hall]|].
    simpl. rewrite Hmap. reflexivity.
  - discriminate.
Qed.

Lemma bind_flag_buttons_total (comps : list C)
  (opts : list (string * Interface.option_value)) :
  Forall (fun o => snd o <> Interface.NotStr) opts ->
  exists bs,
    Interface.bind_flag_buttons comps
      (zip (map (fun o => Interface.FlagButton (fst o)) opts) opts)
    = Returned bs.
Proof.
  induction 1 as [| [label [v |]] rest Hv Hrest [bs IH]]; simpl.
  - eexists; reflexivity.
  - rewrite IH. eexists; reflexivity.
  - exfalso; apply Hv; reflexivity.
Qed.

(** What [attach_flagging_events] was given, in a successful rendering. *)
Lemma manual_flagging_total (self : @Interface.Self C) :
  Forall (fun o => snd o <> Interface.NotStr)
         (Interface.flagging_options self) ->
  exists fl,
    Interface.attach_flagging_events self
      (Some (Interface.render_flag_btns self)) = Returned fl.
Proof.
  intros Hopts. unfold Interface.attach_flagging_events,
    Interface.render_flag_btns.
  destruct (bind_flag_buttons_total
              (if Interface.InterfaceTypes_eqb (Interface.interface_type self)
                    Interface.UNIFIED
               then Interface.input_components self
               else Interface.input_components self
                    ++ Interface.output_components self)
              (Interface.flagging_options self) Hopts) as [bs Hbs].
  destruct (Interface.flagging_options self) as [| o rest]; simpl in *;
    [eexists; reflexivity|].
  destruct (negb _); [eexists; reflexivity|].
  destruct (String.eqb _ "auto"); [eexists; reflexivity|].
  rewrite Hbs. eexists; reflexivity.
Qed.

End RenderFacts.

Ltac render_cases self :=
  destruct self as [t lv gen af opts dup mains adds outs];
  unfold Interface.render, Interface.render_input_column,
    Interface.render_output_column, Interface.attach_submit_events,
    Interface.on_triggers;
  cbn [Interface.interface_type Interface.live Interface.fn_is_generator
       Interface.allow_flagging Interface.flagging_options
       Interface.allow_duplication Interface.main_input_components
       Interface.additional_input_components Interface.output_components].

(** X15. When the components render and every flagging option stores a
    string, the rendering block of [Interface.__init__] raises in two
    cases only: a standard interface that is live with automatic
    flagging, which has no submit button to flag with; and when [on]
    refuses the triggers [attach_submit_events] hands it.  The error is
    then the [RenderError] for the missing submit button, or the one [on]
    raised. *)
Theorem render_failures :
  forall (C : Type) (is_State : C -> bool)
         (render_components : list C -> res unit)
         (streams has_change has_submit : C -> bool)
         (on : list (@Interface.trigger C) -> res unit)
         (self : @Interface.Self C),
    (forall l, render_components l = Returned tt) ->
    Forall (fun o => snd o <> Interface.NotStr)
           (Interface.flagging_options self) ->
    let rendered :=
      Interface.render is_State render_components streams has_change
        has_submit on self in
    let live_auto :=
      Interface.interface_type self = Interface.STANDARD
      /\ Interface.live self = true
      /\ Interface.allow_flagging self = "auto" in
    let refused (e : gr_exn) :=
      exists triggers,
        Interface.on_triggers streams has_change has_submit self
        = Some triggers
        /\ on triggers = Raised e in
    (forall e,
       rendered = Raised e ->
       (live_auto /\ e = GrRenderError "Submit button not rendered")
       \/ refused e) /\
    ((exists e, rendered = Raised e) <-> live_auto \/ exists e, refused e).
Proof.
  intros C is_State rc streams has_change has_submit on self Hrc Hopts.
  pose proof (manual_flagging_total self Hopts) as [fl Hfl].
  revert Hfl. render_cases self. intros Hfl.
  cbv zeta. rewrite !Hrc. cbn [Interface.rbind].
  destruct (String.eqb_spec af "manual") as [-> | Hm];
    [| destruct (String.eqb_spec af "auto") as [-> | Ha]];
    destruct t, lv, gen, dup;
    cbn -[Interface.attach_flagging_events Interface.render_flag_btns
          Interface.live_events Interface.submit_triggers];
    try (destruct (on _) as [[] | eon] eqn:Hon);
    cbn -[Interface.attach_flagging_events Interface.render_flag_btns
          Interface.live_events Interface.submit_triggers];
    rewrite ?Hfl;
    cbn -[Interface.attach_flagging_events Interface.render_flag_btns
          Interface.live_events Interface.submit_triggers];
    (split;
     [ intros e H; try discriminate H; injection H as <-;
       first [ left; split; [repeat split | reflexivity]
             | right; eexists; split; [reflexivity | exact Hon] ]
     | split;
       [ intros [e H]; try discriminate H;
         first [ left; repeat split; reflexivity
               | right; eexists; eexists; split; [reflexivity | exact Hon] ]
       | intros [(H1 & H2 & H3) | (e & triggers & H1 & H2)];
         try discriminate; try congruence;
         try (injection H1 as <-; congruence);
         eexists; reflexivity ] ]).
Qed.

Lemma render_failures_witness :
  let rendered := demo_render live_auto in
  let is_live_auto :=
    Interface.interface_type live_auto = Interface.STANDARD
    /\ Interface.live live_auto = true
    /\ Interface.allow_flagging live_auto = "auto" in
  let refused (e : gr_exn) :=
    exists triggers,
      Interface.on_triggers demo_streams demo_has_change demo_has_submit
        live_auto = Some triggers
      /\ demo_on triggers = Raised e in
  (forall e,
     rendered = Raised e ->
     (is_live_auto /\ e = GrRenderError "Submit button not rendered")
     \/ refused e) /\
  ((exists e, rendered = Raised e) <-> is_live_auto \/ exists e, refused e).
Proof.
  apply (render_failures nat demo_is_State demo_render_components
           demo_streams demo_has_change demo_has_submit demo_on live_auto).
  - intros l; reflexivity.
  - repeat constructor; simpl; discriminate.
Defined.

(** A live interface whose only input is a [State] has no event to listen
    to: [on] gets the empty list, and what it raises comes out of
    [Interface.__init__]. *)
Example live_state_only_is_refused :
  Interface.on_triggers demo_streams demo_has_change demo_has_submit
    live_state_only = Some [] /\
  demo_render live_state_only = Raised (GrException "IndexError").
Proof. split; reflexivity. Qed.

(** X16. In an interface that rendered, the clear button is there; the
    submit button is missing exactly in a live standard or input-only
    interface, and is the Generate button in an output-only one; the stop
    button is there exactly for a generator function in an interface that
    is not live; the duplicate button exactly when duplication is allowed
    and the output column is rendered. *)
Theorem rendered_buttons :
  forall (C : Type) (is_State : C -> bool)
         (render_components : list C -> res unit)
         (streams has_change has_submit : C -> bool)
         (on : list (@Interface.trigger C) -> res unit)
         (self : @Interface.Self C) (r : @Interface.Rendered C),
    Interface.render is_State render_components streams has_change
      has_submit on self = Returned r ->
    Interface.clear_btn r = Interface.ClearButton /\
    (Interface.submit_btn r = None
     <-> Interface.live self = true
         /\ (Interface.interface_type self = Interface.STANDARD
             \/ Interface.interface_type self = Interface.INPUT_ONLY)) /\
    (Interface.interface_type self = Interface.OUTPUT_ONLY ->
     Interface.submit_btn r = Some Interface.GenerateButton) /\
    (Interface.stop_btn r = Some Interface.StopButton
     <-> Interface.fn_is_generator self = true
         /\ Interface.live self = false) /\
    (Interface.duplicate_btn r = Some Interface.DuplicateButton
     <-> Interface.allow_duplication self = true
         /\ (Interface.interface_type self = Interface.STANDARD
             \/ Interface.interface_type self = Interface.OUTPUT_ONLY)).
Proof.
  intros C is_State rc streams has_change has_submit on self r.
  render_cases self.
  destruct (rc (Interface.input_components _)) as [[] | e1];
    destruct (rc (filter _ _)) as [[] | e2];
    destruct (String.eqb af "manual"); destruct (String.eqb af "auto");
    destruct t, lv, gen, dup;
    cbn -[Interface.attach_flagging_events Interface.render_flag_btns
          Interface.live_events Interface.submit_triggers];
    try discriminate;
    try (destruct (on _) as [[] | eon];
         cbn -[Interface.attach_flagging_events Interface.render_flag_btns
               Interface.live_events Interface.submit_triggers];
         [|discriminate]);
    (destruct (Interface.attach_flagging_events _ _) as [fl | e3];
     cbn; [|discriminate]);
    intros H; injection H as <-; cbn;
    repeat split; intros; try discriminate; try congruence;
    try tauto;
    try (match goal with
         | H : _ /\ _ |- _ => destruct H as [? ?]
         end; try discriminate; try congruence;
         match goal with
         | H : _ \/ _ |- _ => destruct H; discriminate
         end).
Qed.

Lemma rendered_buttons_witness :
  exists r : @Interface.Rendered nat,
    demo_render manual_standard = Returned r /\
    Interface.clear_btn r = Interface.ClearButton /\
    (Interface.submit_btn r = None
     <-> Interface.live manual_standard = true
         /\ (Interface.interface_type manual_standard = Interface.STANDARD
             \/ Interface.interface_type manual_standard
                = Interface.INPUT_ONLY)) /\
    (Interface.interface_type manual_standard = Interface.OUTPUT_ONLY ->
     Interface.submit_btn r = Some Interface.GenerateButton) /\
    (Interface.stop_btn r = Some Interface.StopButton
     <-> Interface.fn_is_generator manual_standard = true
         /\ Interface.live manual_standard = false) /\
    (Interface.duplicate_btn r = Some Interface.DuplicateButton
     <-> Interface.allow_duplication manual_standard = true
         /\ (Interface.interface_type manual_standard = Interface.STANDARD
             \/ Interface.interface_type manual_standard
                = Interface.OUTPUT_ONLY)).
Proof.
  eexists. split; [vm_compute; reflexivity|].
  eapply (rendered_buttons nat demo_is_State demo_render_components
            demo_streams demo_has_change demo_has_submit demo_on
            manual_standard).
  vm_compute; reflexivity.
Defined.

Lemma attach_flagging_events_agrees {C : Type} (self : @Interface.Self C)
  (flag_btns : option (list Interface.Button)) (fl : @Interface.Flagging C) :
  (flag_btns = None
   /\ (Interface.interface_type self = Interface.INPUT_ONLY
       \/ (Interface.allow_flagging self <> "manual"
           /\ Interface.allow_flagging self <> "auto")))
  \/ (flag_btns = Some (Interface.render_flag_btns self)
      /\ Interface.allow_flagging self = "manual")
  \/ ((exists b, flag_btns = Some [b])
      /\ Interface.allow_flagging self = "auto") ->
  Interface.attach_flagging_events self flag_btns = Returned fl ->
  flagging_agrees self fl.
Proof.
  intros Hcases Hfl.
  destruct Hcases as [[-> Hnone] | [[-> Haf] | [[b ->] Haf]]].
  - injection Hfl as <-. simpl. tauto.
  - destruct self as [t lv gen af opts dup mains adds outs].
    cbn [Interface.allow_flagging] in Haf. subst af.
    unfold Interface.attach_flagging_events, Interface.render_flag_btns in Hfl.
    unfold flagging_agrees, Interface.flagging_setup.
    cbn [Interface.interface_type Interface.allow_flagging
         Interface.flagging_options] in *.
    destruct opts as [| o rest];
      [injection Hfl as <-; right; right; reflexivity|].
    cbn [map] in Hfl.
    destruct t; cbn -[Interface.bind_flag_buttons] in Hfl |- *;
      try (injection Hfl as <-; left; reflexivity);
      (destruct (Interface.bind_flag_buttons _ _) as [bs | e] eqn:Hbs;
       cbn in Hfl; [|discriminate Hfl]);
      injection Hfl as <-;
      (split; [reflexivity|]);
      eexists; (split; [reflexivity|]);
      apply (bind_flag_buttons_spec _ (o :: rest)); exact Hbs.
  - unfold Interface.attach_flagging_events in Hfl.
    unfold flagging_agrees, Interface.flagging_setup.
    rewrite Haf in *.
    destruct (Interface.interface_type self) eqn:Ht; cbn in Hfl |- *;
      injection Hfl as <-; try (left; reflexivity);
      (split; [reflexivity|]).
    + exists (Interface.input_components self
              ++ Interface.output_components self), [].
      rewrite app_nil_r. split; reflexivity.
    + exists (Interface.input_components self
              ++ Interface.output_components self), [].
      rewrite app_nil_r. split; reflexivity.
    + exists (Interface.input_components self),
             (Interface.output_components self).
      split; reflexivity.
Qed.

(** X17. In an interface that rendered, flagging is wired to the
    components the flagging callback was set up with: with automatic
    flagging the values sent start with the values of those components,
    with manual flagging every flag button sends exactly their values and
    the buttons are the flagging options in order; and nothing is wired
    only in an input-only interface, without manual or automatic
    flagging, or with no flagging option at all. *)
Theorem flagging_matches_setup :
  forall (C : Type) (is_State : C -> bool)
         (render_components : list C -> res unit)
         (streams has_change has_submit : C -> bool)
         (on : list (@Interface.trigger C) -> res unit)
         (self : @Interface.Self C) (r : @Interface.Rendered C),
    Interface.render is_State render_components streams has_change
      has_submit on self = Returned r ->
    flagging_agrees self (Interface.flagging r).
Proof.
  intros C is_State rc streams has_change has_submit on self r.
  render_cases self.
  destruct (rc (Interface.input_components _)) as [[] | e1];
    destruct (rc (filter _ _)) as [[] | e2];
    destruct (String.eqb_spec af "manual") as [Hm | Hm];
    destruct (String.eqb_spec af "auto") as [Ha | Ha];
    destruct t, lv, gen, dup;
    cbn -[Interface.attach_flagging_events Interface.render_flag_btns
          Interface.live_events Interface.submit_triggers];
    try discriminate;
    try (destruct (on _) as [[] | eon];
         cbn -[Interface.attach_flagging_events Interface.render_flag_btns
               Interface.live_events Interface.submit_triggers];
         [|discriminate]);
    (destruct (Interface.attach_flagging_events _ _) as [fl | e3] eqn:Hfl;
     cbn; [|discriminate]);
    intros H; injection H as <-; cbn [Interface.flagging];
    (eapply attach_flagging_events_agrees; [|exact Hfl]);
    cbn [Interface.interface_type Interface.allow_flagging];
    try (left; split; [reflexivity | tauto]);
    try (right; left; split; [reflexivity | assumption]);
    try (right; right; split; [eexists; reflexivity | assumption]).
Qed.

Lemma flagging_matches_setup_witness :
  exists r : @Interface.Rendered nat,
    demo_render auto_unified = Returned r /\
    flagging_agrees auto_unified (Interface.flagging r).
Proof.
  eexists. split; [vm_compute; reflexivity|].
  eapply (flagging_matches_setup nat demo_is_State demo_render_components
            demo_streams demo_has_change demo_has_submit demo_on
            auto_unified).
  vm_compute; reflexivity.
Defined.

Example auto_unified_flags_inputs_first :
  exists r : @Interface.Rendered nat,
    demo_render auto_unified = Returned r /\
    Interface.flagging r = Interface.AutoFlagging [1; 2; 1; 2] /\
    Interface.flagging_setup auto_unified = Some [1; 2].
Proof. eexists. repeat split; vm_compute; reflexivity. Qed.

(** * gradio: [TabbedInterface] *)

Lemma combine_seq_nth {I : Type} (f : nat -> string) (il : list I) :
  forall (k i : nat),
    nth_error (combine il (map f (seq k (List.length il)))) i
    = option_map (fun x => (x, f (k + i))) (nth_error il i).
Proof.
  induction il as [| x rest IH]; intros k [| i]; simpl; try reflexivity.
  - rewrite Nat.add_0_r; reflexivity.
  - rewrite IH. replace (S k + i) with (k + S i) by lia. reflexivity.
Qed.

(** X18. Without [tab_names], a [TabbedInterface] renders every interface
    of the list, the one at position i under the name "Tab i"; with
    [tab_names], it renders as many tabs as the shorter of the two lists
    has elements, so interfaces beyond the names are left out. *)
Theorem tabs_follow_the_shorter_list :
  forall (I : Type) (interface_list : list I) (tab_names : list string)
         (i : nat),
    List.length (Interface.tabs interface_list None)
    = List.length interface_list /\
    nth_error (Interface.tabs interface_list None) i
    = option_map (fun x => (x, ("Tab " ++ str_of_nat i)%string))
                 (nth_error interface_list i) /\
    List.length (Interface.tabs interface_list (Some tab_names))
    = Nat.min (List.length interface_list) (List.length tab_names).
Proof.
  intros I interface_list tab_names i. unfold Interface.tabs, zip.
  repeat split.
  - rewrite length_combine, length_map, length_seq. apply Nat.min_id.
  - apply (combine_seq_nth (fun i => ("Tab " ++ str_of_nat i)%string)
             interface_list 0 i).
  - apply length_combine.
Qed.

(** * gradio: flagging *)

Section LoggerFacts.
Context {C sample : Type}.
Variable label : C -> option string.
Variable component_flag : C -> option sample -> string -> string.
Variable strip_invalid_filename_characters : string -> string.
Variable under_flagging_dir : string -> string.
Variable is_update : option sample -> bool.
Variable str : option sample -> string.
Variable simplify_file_data_in_str : string -> string.
Variable sanitize_list_for_csv : list string -> list string.

Lemma enumerate_from_length {A : Type} (l : list A) :
  forall k, List.length (enumerate_from k l) = List.length l.
Proof.
  induction l as [| x rest IH]; intros k; simpl;
    [reflexivity | rewrite IH; reflexivity].
Qed.

Variable flag_error : C -> option sample -> string -> option gr_exn.
Variable mkdir_error : string -> option gr_exn.
Variable write_error :
  option Flagging.csv_file -> Flagging.csv_file -> option gr_exn.
Variable read_error : Flagging.csv_file -> option gr_exn.

Lemma count_rows_Counted (rows : Flagging.csv_file) (n : Z) :
  Flagging.count_rows read_error rows = Flagging.Counted n ->
  n = (Z.of_nat (List.length rows) - 1)%Z.
Proof.
  unfold Flagging.count_rows, Flagging.line_count.
  destruct (read_error rows); intros H; [discriminate H|].
  injection H as <-. reflexivity.
Qed.

Lemma count_rows_wrote (rows : Flagging.csv_file) :
  Flagging.wrote_row (Flagging.count_rows read_error rows) = true.
Proof.
  unfold Flagging.count_rows. destruct (read_error rows); reflexivity.
Qed.


Lemma SimpleCSVLogger_flags_counts (components : list C)
  (presses : list (@Flagging.press sample)) :
  forall (disk : Flagging.Disk) (k : nat) (n : Z),
    nth_error
      (Flagging.SimpleCSVLogger_flags label component_flag flag_error
         strip_invalid_filename_characters under_flagging_dir
         sanitize_list_for_csv mkdir_error write_error read_error
         components presses disk) k
    = Some (Flagging.Counted n) ->
    n = (Z.of_nat
           (List.length (Flagging.rows_of (Flagging.log disk))
            + Flagging.rows_written
                (firstn (S k)
                   (Flagging.SimpleCSVLogger_flags label component_flag
                      flag_error strip_invalid_filename_characters
                      under_flagging_dir sanitize_list_for_csv mkdir_error
                      write_error read_error components presses disk)))
         - 1)%Z.
Proof.
  induction presses as [| [[[flag_data flag_option] username] now] rest IH];
    intros disk k n.
  - destruct k; discriminate.
  - cbn [Flagging.SimpleCSVLogger_flags].
    unfold Flagging.SimpleCSVLogger_flag.
    destruct (Flagging.simple_csv_data _ _ _ _ _ _ _ _)
      as [[csv_data | e] made].
    + destruct (write_error (Flagging.log disk) _) as [e |].
      * destruct k as [| [| k]]; discriminate.
      * destruct k as [| k].
        -- cbn [nth_error firstn]. intros H; injection H as H.
           unfold Flagging.rows_written. cbn [filter]. rewrite H.
           cbn [Flagging.wrote_row List.length].
           apply count_rows_Counted in H. subst n.
           rewrite length_app. simpl. lia.
        -- cbn [nth_error]. intros H. pose proof (IH _ _ _ H) as Hn.
           subst n. cbn [firstn].
           unfold Flagging.rows_written in *. cbn [filter].
           rewrite count_rows_wrote. cbn [List.length Flagging.log
                                          Flagging.rows_of].
           rewrite length_app. simpl. lia.
    + destruct k as [| k].
      * discriminate.
      * cbn [nth_error]. intros H. pose proof (IH _ _ _ H) as Hn.
        subst n. cbn [firstn].
        unfold Flagging.rows_written in *. cbn [filter Flagging.wrote_row].
        reflexivity.
Qed.


Lemma simple_csv_data_returns (pairs : list (C * option sample)) :
  (forall c s d, flag_error c s d = None) ->
  (forall d, mkdir_error d = None) ->
  forall made : list string,
    exists cells made',
      Flagging.simple_csv_data label component_flag flag_error
        strip_invalid_filename_characters under_flagging_dir mkdir_error
        pairs made
      = (Returned cells, made').
Proof.
  intros Hflag Hmkdir.
  induction pairs as [| [component s] rest IH]; intros made; simpl.
  - eexists; eexists; reflexivity.
  - rewrite Hmkdir, Hflag.
    destruct (IH (made ++ [under_flagging_dir
                             (strip_invalid_filename_characters
                                (Flagging.str_or (label component) ""))]))
      as (cells & made' & H).
    rewrite H. eexists; eexists; reflexivity.
Qed.


Lemma SimpleCSVLogger_flags_all (components : list C)
  (presses : list (@Flagging.press sample)) :
  (forall c s d, flag_error c s d = None) ->
  (forall d, mkdir_error d = None) ->
  (forall f rows, write_error f rows = None) ->
  (forall rows, read_error rows = None) ->
  forall disk : Flagging.Disk,
    Flagging.SimpleCSVLogger_flags label component_flag flag_error
      strip_invalid_filename_characters under_flagging_dir
      sanitize_list_for_csv mkdir_error write_error read_error
      components presses disk
    = map (fun i => Flagging.Counted (Z.of_nat i))
        (seq (List.length (Flagging.rows_of (Flagging.log disk)))
             (List.length presses)).
Proof.
  intros Hflag Hmkdir Hwrite Hread.
  induction presses as [| [[[flag_data flag_option] username] now] rest IH];
    intros disk; [reflexivity|].
  cbn [Flagging.SimpleCSVLogger_flags]. unfold Flagging.SimpleCSVLogger_flag.
  destruct (simple_csv_data_returns (zip components flag_data) Hflag Hmkdir
              (Flagging.dirs disk)) as (cells & made' & Hcells).
  rewrite Hcells, Hwrite. unfold Flagging.count_rows. rewrite Hread.
  rewrite IH. cbn [List.length seq map Flagging.log Flagging.rows_of].
  unfold Flagging.line_count. rewrite length_app. cbn [List.length].
  replace (List.length (Flagging.rows_of (Flagging.log disk)) + 1)
    with (S (List.length (Flagging.rows_of (Flagging.log disk)))) by lia.
  f_equal. f_equal. lia.
Qed.

End LoggerFacts.



(** Two presses that return count 1 and 2; a press whose component raises
    leaves the log as it was; a cell that [csv.reader] refuses makes that
    press and every later one raise, after its row was written. *)
Example two_presses_count_one_two :
  demo_CSVLogger_flags two_presses
  = [Flagging.Counted 1; Flagging.Counted 2].
Proof. vm_compute; reflexivity. Qed.

Example failed_press_is_not_counted :
  demo_CSVLogger_flags bad_then_good
  = [Flagging.RaisedBeforeWrite (GrException "TypeError");
     Flagging.Counted 1].
Proof. vm_compute; reflexivity. Qed.

Example huge_cell_breaks_the_log :
  demo_CSVLogger_flags huge_then_small
  = [Flagging.Counted 1;
     Flagging.RaisedAfterWrite (GrException "_csv.Error");
     Flagging.RaisedAfterWrite (GrException "_csv.Error")].
Proof. vm_compute; reflexivity. Qed.

(** X20. [SimpleCSVLogger.flag] writes no header row and still subtracts
    one.  On a flagging directory without log.csv, when no directory, no
    component, no writing and no reading back raises, every press returns
    and the presses return 0, 1, 2, ...; in general, whenever a press
    returns, it returns one less than the number of rows written so far,
    its own among them. *)
Theorem SimpleCSVLogger_counts_one_less :
  forall (C sample : Type) (label : C -> option string)
         (component_flag : C -> option sample -> string -> string)
         (flag_error : C -> option sample -> string -> option gr_exn)
         (strip_invalid_filename_characters under_flagging_dir
            : string -> string)
         (sanitize_list_for_csv : list string -> list string)
         (mkdir_error : string -> option gr_exn)
         (write_error
            : option Flagging.csv_file -> Flagging.csv_file -> option gr_exn)
         (read_error : Flagging.csv_file -> option gr_exn)
         (components : list C)
         (presses : list (@Flagging.press sample)) (disk : Flagging.Disk),
    Flagging.log disk = None ->
    let outcomes :=
      Flagging.SimpleCSVLogger_flags label component_flag flag_error
        strip_invalid_filename_characters under_flagging_dir
        sanitize_list_for_csv mkdir_error write_error read_error
        components presses disk in
    ((forall c s d, flag_error c s d = None) ->
     (forall d, mkdir_error d = None) ->
     (forall f rows, write_error f rows = None) ->
     (forall rows, read_error rows = None) ->
     outcomes
     = map (fun i => Flagging.Counted (Z.of_nat i))
         (seq 0 (List.length presses))) /\
    (forall (k : nat) (n : Z),
       nth_error outcomes k = Some (Flagging.Counted n) ->
       n = (Z.of_nat (Flagging.rows_written (firstn (S k) outcomes)) - 1)%Z).
Proof.
  intros until disk. intros Hlog outcomes. split.
  - intros Hflag Hmkdir Hwrite Hread. unfold outcomes.
    rewrite SimpleCSVLogger_flags_all by assumption.
    rewrite Hlog. reflexivity.
  - intros k n H.
    apply SimpleCSVLogger_flags_counts in H. fold outcomes in H.
    rewrite Hlog in H. exact H.
Qed.

Lemma SimpleCSVLogger_counts_one_less_witness :
  Flagging.SimpleCSVLogger_flags (fun c : nat => Some "image")
    demo_component_flag (fun _ _ _ => None) (fun s => s) (fun s => s)
    (fun row => row) (fun _ => None) (fun _ _ => None) (fun _ => None)
    [1; 2] two_presses (Flagging.mkDisk [] None)
  = [Flagging.Counted 0; Flagging.Counted 1] /\
  0%Z = (Z.of_nat (Flagging.rows_written
                     (firstn 2 (demo_SimpleCSVLogger_flags bad_then_good)))
         - 1)%Z.
Proof.
  split.
  - apply (SimpleCSVLogger_counts_one_less nat string
             (fun c : nat => Some "image") demo_component_flag
             (fun _ _ _ => None) (fun s => s) (fun s => s) (fun row => row)
             (fun _ => None) (fun _ _ => None) (fun _ => None)
             [1; 2] two_presses (Flagging.mkDisk [] None));
      intros; reflexivity.
  - apply (SimpleCSVLogger_counts_one_less nat string
             (fun c : nat => Some "image") demo_component_flag
             demo_flag_error (fun s => s) (fun s => s) (fun row => row)
             (fun _ => None) (fun _ _ => None) demo_read_error
             [1; 2] bad_then_good (Flagging.mkDisk [] None) eq_refl).
    reflexivity.
Defined.

Example simple_logger_starts_at_zero :
  demo_SimpleCSVLogger_flags two_presses
  = [Flagging.Counted 0; Flagging.Counted 1].
Proof. vm_compute; reflexivity. Qed.

(** X21. The header row of [CSVLogger] has one cell per component and
    three more; a data row has one cell per component that came with a
    value and three more.  So a press with fewer values than components
    writes a row narrower than the header. *)
Theorem CSVLogger_row_widths :
  forall (C sample : Type) (label : C -> option string)
         (component_flag : C -> option sample -> string -> string)
         (strip_invalid_filename_characters under_flagging_dir
            : string -> string)
         (is_update : option sample -> bool) (str : option sample -> string)
         (simplify_file_data_in_str : string -> string)
         (simplify_file_data : bool) (components : list C)
         (flag_data : list (option sample)) (flag_option : string)
         (username : option string) (now : string),
    List.length (Flagging.CSVLogger_headers label components)
    = List.length components + 3 /\
    List.length
      (Flagging.CSVLogger_csv_data label component_flag
         strip_invalid_filename_characters under_flagging_dir is_update str
         simplify_file_data_in_str simplify_file_data components flag_data
         flag_option username now)
    = Nat.min (List.length components) (List.length flag_data) + 3.
Proof.
  intros. unfold Flagging.CSVLogger_headers, Flagging.CSVLogger_csv_data,
    enumerate, zip.
  rewrite !length_app, !length_map, !enumerate_from_length, length_combine.
  split; reflexivity.
Qed.

(** X22. [FlagMethod.__call__] calls the callback once and lets no
    exception of it out.  Without visual feedback it returns nothing,
    whether the callback raised or not; with visual feedback it returns
    the text "Error!" exactly when the callback raised, and otherwise
    waits and returns the button reset to its label. *)
Theorem FlagMethod_swallows_exceptions :
  forall (sample St : Type) (self : @Flagging.FlagMethod sample St)
         (username : option string) (flag_data : list (option sample))
         (st : St),
    let called :=
      Flagging.flagging_callback self flag_data (Flagging.fm_value self)
        username st in
    let '(fb, effects, st') :=
      Flagging.FlagMethod_call self username flag_data st in
    st' = snd called /\
    (Flagging.visual_feedback self = false -> fb = Flagging.NoValue) /\
    (Flagging.visual_feedback self = true ->
     (fb = Flagging.ErrorText <-> exists e, fst called = Raised e) /\
     (fb = Flagging.ResetButton (Flagging.fm_label self)
      <-> exists n, fst called = Returned n)) /\
    (In Flagging.Sleep effects
     <-> Flagging.visual_feedback self = true
         /\ exists n, fst called = Returned n).
Proof.
  intros sample St self username flag_data st called.
  unfold Flagging.FlagMethod_call. subst called.
  destruct (Flagging.flagging_callback self flag_data (Flagging.fm_value self)
              username st) as [[n | e] st'];
    destruct (Flagging.visual_feedback self); simpl;
    repeat split; intros; try discriminate; try reflexivity;
    try solve [eexists; reflexivity];
    try (match goal with
         | H : exists _, _ |- _ => destruct H as [? H]; discriminate H
         end);
    try tauto;
    try (match goal with
         | H : _ /\ _ |- _ => destruct H as [? [? H]]; discriminate
         end);
    try (left; reflexivity);
    intuition discriminate.
Qed.

(** * gradio: [Gallery] and [DownloadButton] *)

Section GalleryFacts.
Context {A P : Type}.
Variable save_img_array_to_cache : A -> string.
Variable save_pil_to_cache : P -> string.
Variable is_http_url_like : string -> bool.
Variable url_name : string -> string.
Variable path_name : string -> string.
Variable PIL_Image_open : string -> res P.
Variable np_array : P -> A.

Lemma save_all_spec (l : list (@Gallery.element A P)) :
  forall d : Gallery.GalleryData,
    Gallery.save_all save_img_array_to_cache save_pil_to_cache
      is_http_url_like url_name path_name l = Returned d ->
    List.length d = List.length l /\
    map Gallery.caption d = map Gallery.caption_of l /\
    forallb Gallery.supported l = true.
Proof.
  induction l as [| x rest IH]; intros d; simpl.
  - intros H; injection H as <-. repeat split.
  - destruct (Gallery._save _ _ _ _ _ x) as [o | e] eqn:Hx; [|discriminate].
    destruct (Gallery.save_all _ _ _ _ _ rest) as [os | e] eqn:Hrest;
      [|discriminate].
    intros H; injection H as <-.
    destruct (IH os eq_refl) as (Hlen & Hcap & Hsup).
    simpl. rewrite Hlen, Hcap, Hsup.
    destruct x as [[a | p | s | s |] | [a | p | s | s |] c |];
      simpl in Hx; try discriminate Hx; injection Hx as <-;
      repeat split.
Qed.

Lemma save_path (x : @Gallery.element A P) (g : Gallery.GalleryImage) :
  Gallery._save save_img_array_to_cache save_pil_to_cache
    is_http_url_like url_name path_name x = Returned g ->
  Gallery.path_of save_img_array_to_cache save_pil_to_cache x
  = Some (path (Gallery.image g)).
Proof.
  destruct x as [[a | p | s | s |] | [a | p | s | s |] c |];
    simpl; intros H; try discriminate H; injection H as <-;
    try reflexivity; unfold Gallery.path_of; simpl;
    destruct (is_http_url_like s); reflexivity.
Qed.

Lemma save_all_pointwise (l : list (@Gallery.element A P)) :
  forall d : Gallery.GalleryData,
    Gallery.save_all save_img_array_to_cache save_pil_to_cache
      is_http_url_like url_name path_name l = Returned d ->
    Forall2
      (fun x g =>
         Gallery._save save_img_array_to_cache save_pil_to_cache
           is_http_url_like url_name path_name x = Returned g)
      l d.
Proof.
  induction l as [| x rest IH]; intros d; simpl.
  - intros H; injection H as <-. constructor.
  - destruct (Gallery._save _ _ _ _ _ x) as [o | e] eqn:Hx; [|discriminate].
    destruct (Gallery.save_all _ _ _ _ _ rest) as [os | e] eqn:Hrest;
      [|discriminate].
    intros H; injection H as <-.
    constructor; [exact Hx | apply IH; reflexivity].
Qed.

Lemma save_all_total (l : list (@Gallery.element A P)) :
  forallb Gallery.supported l = true ->
  exists d,
    Gallery.save_all save_img_array_to_cache save_pil_to_cache
      is_http_url_like url_name path_name l = Returned d.
Proof.
  induction l as [| x rest IH]; simpl; intros H.
  - eexists; reflexivity.
  - apply andb_prop in H. destruct H as [Hx Hrest].
    destruct (IH Hrest) as [os Hos]. rewrite Hos.
    destruct x as [[a | p | s | s |] | [a | p | s | s |] c |];
      simpl in Hx |- *; try discriminate Hx; eexists; reflexivity.
Qed.

Lemma files_round_trip (l : list (@Gallery.element A P)) :
  forall files : list (string * option string),
    map Gallery.file_of l = map Some files ->
    exists d,
      Gallery.save_all save_img_array_to_cache save_pil_to_cache
        is_http_url_like url_name path_name l = Returned d /\
      Gallery.convert_all PIL_Image_open np_array "filepath" d
      = Returned (map (fun f => (Gallery.AsPath (fst f), snd f)) files).
Proof.
  induction l as [| x rest IH]; intros [| [s c] files] H; simpl in H;
    try discriminate H.
  - exists []; split; reflexivity.
  - injection H as Hx Hrest.
    destruct (IH files Hrest) as (d & Hd & Hconv).
    simpl. rewrite Hd.
    destruct x as [[a | p | s' | s' |] | [a | p | s' | s' |] c' |];
      simpl in Hx; try discriminate Hx; injection Hx as <- <-;
      simpl; try destruct (is_http_url_like _);
      eexists; (split; [reflexivity|]); simpl; rewrite Hconv; reflexivity.
Qed.

End GalleryFacts.

Lemma convert_all_spec {A P : Type} (PIL_Image_open : string -> res P)
  (np_array : P -> A) (type : string) (root : Gallery.GalleryData) :
  forall data : list (@Gallery.converted A P * option string),
    Gallery.convert_all PIL_Image_open np_array type root = Returned data ->
    List.length data = List.length root /\
    map snd data = map Gallery.caption root.
Proof.
  induction root as [| g rest IH]; intros data; simpl.
  - intros H; injection H as <-. split; reflexivity.
  - destruct (Gallery.convert_to_type _ _ _ _) as [image | e]; [|discriminate].
    destruct (Gallery.convert_all _ _ _ rest) as [ds | e]; [|discriminate].
    intros H; injection H as <-.
    destruct (IH ds eq_refl) as [Hlen Hcap].
    simpl. rewrite Hlen, Hcap. split; reflexivity.
Qed.

(** X23. A non-empty list of file paths, each a string or a [Path], alone
    or with a caption, that goes through [Gallery.postprocess] and then
    through [Gallery.preprocess] of a gallery of type "filepath" comes
    back as the same paths with the same captions, in order; the empty
    list comes back as [None]. *)
Theorem gallery_files_round_trip :
  forall (A P : Type) (save_img_array_to_cache : A -> string)
         (save_pil_to_cache : P -> string)
         (is_http_url_like : string -> bool)
         (url_name path_name : string -> string)
         (PIL_Image_open : string -> res P) (np_array : P -> A)
         (l : list (@Gallery.element A P))
         (files : list (string * option string)),
    map Gallery.file_of l = map Some files ->
    Interface.rbind
      (Gallery.postprocess save_img_array_to_cache save_pil_to_cache
         is_http_url_like url_name path_name (Some l))
      (fun d => Gallery.preprocess PIL_Image_open np_array "filepath" (Some d))
    = Returned
        (match files with
         | [] => None
         | _ :: _ =>
             Some (map (fun f => (Gallery.AsPath (fst f), snd f)) files)
         end).
Proof.
  intros A P sa sp http un pn op np l files H.
  destruct (files_round_trip sa sp http un pn op np l files H)
    as (d & Hd & Hconv).
  unfold Gallery.postprocess. rewrite Hd. simpl.
  unfold Gallery.preprocess.
  destruct d as [| g d'].
  - simpl in Hconv. injection Hconv as Hfiles.
    destruct files; [reflexivity | discriminate Hfiles].
  - rewrite Hconv. destruct files; [|reflexivity].
    apply convert_all_spec in Hconv. destruct Hconv as [Hlen _].
    discriminate Hlen.
Qed.

Lemma gallery_files_round_trip_witness :
  Interface.rbind
    (Gallery.postprocess (A := unit) (P := unit)
       (fun _ => "cache/a.png") (fun _ => "cache/p.png")
       (fun s => String.eqb s "https://host/bus.png")
       (fun _ => "bus.png") (fun s => s)
       (Some [Gallery.Bare (Gallery.Str "https://host/bus.png");
              Gallery.Captioned (Gallery.PathObj "cat.png") (Some "a cat")]))
    (fun d => Gallery.preprocess (fun _ => Returned tt) (fun u => u)
                "filepath" (Some d))
  = Returned
      (Some [(Gallery.AsPath "https://host/bus.png", None);
             (Gallery.AsPath "cat.png", Some "a cat")]).
Proof.
  apply (gallery_files_round_trip unit unit _ _ _ _ _ _ _
           [Gallery.Bare (Gallery.Str "https://host/bus.png");
            Gallery.Captioned (Gallery.PathObj "cat.png") (Some "a cat")]
           [("https://host/bus.png", None); ("cat.png", Some "a cat")]).
  reflexivity.
Defined.

(** X24. [Gallery.postprocess] returns for every list whose elements it
    can process, and what it returns is, position by position, what
    [_save] returns for the elements of the list: one image per element,
    in the order of the list, the image at position i being the one made
    from the element at position i, with the file of that element (where
    its array or PIL image was saved, or its own string or [Path]) and
    the caption of that element. *)
Theorem gallery_postprocess_keeps_order :
  forall (A P : Type) (save_img_array_to_cache : A -> string)
         (save_pil_to_cache : P -> string)
         (is_http_url_like : string -> bool)
         (url_name path_name : string -> string)
         (l : list (@Gallery.element A P)),
    (forallb Gallery.supported l = true ->
     exists d,
       Gallery.postprocess save_img_array_to_cache save_pil_to_cache
         is_http_url_like url_name path_name (Some l) = Returned d) /\
    (forall d : Gallery.GalleryData,
       Gallery.postprocess save_img_array_to_cache save_pil_to_cache
         is_http_url_like url_name path_name (Some l) = Returned d ->
       List.length d = List.length l /\
       map Gallery.caption d = map Gallery.caption_of l /\
       Forall2
         (fun x g =>
            Gallery._save save_img_array_to_cache save_pil_to_cache
              is_http_url_like url_name path_name x = Returned g)
         l d /\
       forall (i : nat) (x : Gallery.element),
         nth_error l i = Some x ->
         exists g,
           nth_error d i = Some g /\
           Gallery._save save_img_array_to_cache save_pil_to_cache
             is_http_url_like url_name path_name x = Returned g /\
           Gallery.path_of save_img_array_to_cache save_pil_to_cache x
           = Some (path (Gallery.image g)) /\
           Gallery.caption g = Gallery.caption_of x).
Proof.
  intros A P sa sp http un pn l. split.
  - intros Hsup. apply (save_all_total sa sp http un pn l Hsup).
  - intros d H.
    destruct (save_all_spec sa sp http un pn l d H) as (Hlen & Hcap & _).
    pose proof (save_all_pointwise sa sp http un pn l d H) as Hall.
    repeat split; try assumption.
    clear H Hlen Hcap.
    induction Hall as [| x g l' d' Hx Hrest IH]; intros i y Hi.
    + destruct i; discriminate Hi.
    + destruct i as [| i]; simpl in Hi.
      * injection Hi as <-. exists g. repeat split.
        -- exact Hx.
        -- apply (save_path sa sp http un pn x g Hx).
        -- destruct x as [[a | p | s | s |] | [a | p | s | s |] c |];
             simpl in Hx; try discriminate Hx; injection Hx as <-;
             reflexivity.
      * apply (IH i y Hi).
Qed.

Lemma gallery_postprocess_keeps_order_witness :
  let sa := fun n : nat => ("cache/" ++ str_of_nat n ++ ".png")%string in
  let sp := fun _ : unit => "cache/p.png" in
  let l := [Gallery.Captioned (Gallery.Array (P := unit) 5) (Some "five");
            Gallery.Bare (Gallery.Str "cat.png")] in
  let d := [Gallery.mkGalleryImage (mkFileData "cache/5.png" None None)
              (Some "five");
            Gallery.mkGalleryImage
              (mkFileData "cat.png" None (Some "cat.png")) None] in
  (exists d',
     Gallery.postprocess sa sp (fun _ => false) (fun s => s) (fun s => s)
       (Some l) = Returned d') /\
  List.length d = List.length l /\
  map Gallery.caption d = map Gallery.caption_of l /\
  Forall2
    (fun x g =>
       Gallery._save sa sp (fun _ => false) (fun s => s) (fun s => s) x
       = Returned g)
    l d /\
  forall (i : nat) (x : Gallery.element),
    nth_error l i = Some x ->
    exists g,
      nth_error d i = Some g /\
      Gallery._save sa sp (fun _ => false) (fun s => s) (fun s => s) x
      = Returned g /\
      Gallery.path_of sa sp x = Some (path (Gallery.image g)) /\
      Gallery.caption g = Gallery.caption_of x.
Proof.
  intros sa sp l d.
  destruct (gallery_postprocess_keeps_order nat unit sa sp (fun _ => false)
              (fun s => s) (fun s => s) l) as [Hreturns Hshape].
  split.
  - apply Hreturns. reflexivity.
  - apply (Hshape d). reflexivity.
Defined.

(** X25. [Gallery.postprocess] raises exactly when the list holds an
    element it cannot process: an image of another type, or a tuple or
    list that is not a pair; [None] gives the empty gallery. *)
Theorem gallery_postprocess_errors :
  forall (A P : Type) (save_img_array_to_cache : A -> string)
         (save_pil_to_cache : P -> string)
         (is_http_url_like : string -> bool)
         (url_name path_name : string -> string)
         (l : list (@Gallery.element A P)),
    ((exists e,
        Gallery.postprocess save_img_array_to_cache save_pil_to_cache
          is_http_url_like url_name path_name (Some l) = Raised e)
     <-> forallb Gallery.supported l = false) /\
    Gallery.postprocess save_img_array_to_cache save_pil_to_cache
      is_http_url_like url_name path_name None = Returned [].
Proof.
  intros A P sa sp http un pn l. split; [|reflexivity].
  unfold Gallery.postprocess. split.
  - intros [e He].
    destruct (forallb Gallery.supported l) eqn:Hsup; [|reflexivity].
    destruct (save_all_total sa sp http un pn l Hsup) as [d Hd].
    rewrite Hd in He. discriminate He.
  - intros Hsup.
    destruct (Gallery.save_all sa sp http un pn l) as [d | e] eqn:Hd.
    + destruct (save_all_spec sa sp http un pn l d Hd) as (_ & _ & H).
      rewrite H in Hsup. discriminate Hsup.
    + exists e; reflexivity.
Qed.

(** X26. [Gallery.preprocess] never hands an empty list to the function:
    an empty gallery, like no gallery, arrives as [None]; otherwise the
    function receives one (image, caption) pair per image of the gallery,
    with the captions in order. *)
Theorem gallery_preprocess_never_empty :
  forall (A P : Type) (PIL_Image_open : string -> res P) (np_array : P -> A)
         (type : string) (payload : option Gallery.GalleryData),
    (payload = None \/ payload = Some [] ->
     Gallery.preprocess PIL_Image_open np_array type payload
     = Returned None) /\
    (forall data,
       Gallery.preprocess PIL_Image_open np_array type payload
       = Returned (Some data) ->
       data <> [] /\
       exists root,
         payload = Some root /\
         List.length data = List.length root /\
         map snd data = map Gallery.caption root).
Proof.
  intros A P op np type payload. split.
  - intros [-> | ->]; reflexivity.
  - intros data. unfold Gallery.preprocess.
    destruct payload as [[| g rest] |]; try discriminate.
    destruct (Gallery.convert_all op np type (g :: rest)) as [ds | e] eqn:Hc;
      [|discriminate].
    intros H; injection H as <-.
    destruct (convert_all_spec op np type (g :: rest) ds Hc) as [Hlen Hcap].
    split.
    + intros ->. discriminate Hlen.
    + exists (g :: rest). repeat split; assumption.
Qed.

(** X27. A file path that goes through [DownloadButton.postprocess] and
    then through [DownloadButton.preprocess] comes back as it was exactly
    when the temporary file could be made in the cache directory, and the
    file stays there; when it could not, the exception is raised instead
    of the path.  [None] comes back as [None] and no file is made. *)
Theorem download_button_round_trip :
  forall (FS file_object : Type)
         (NamedTemporaryFile : FS -> res file_object * FS)
         (value : option string) (fs : FS),
    DownloadButton.preprocess NamedTemporaryFile
      (DownloadButton.postprocess value) fs
    = match value with
      | None => (Returned None, fs)
      | Some v =>
          (match fst (NamedTemporaryFile fs) with
           | Returned _ => Returned (Some v)
           | Raised e => Raised e
           end,
           snd (NamedTemporaryFile fs))
      end.
Proof.
  intros FS file_object NamedTemporaryFile [v |] fs; [|reflexivity].
  unfold DownloadButton.preprocess, DownloadButton.postprocess. simpl.
  destruct (NamedTemporaryFile fs) as [[f | e] fs']; reflexivity.
Qed.

Example download_button_missing_cache :
  DownloadButton.preprocess demo_NamedTemporaryFile
    (DownloadButton.postprocess (Some "report.pdf")) None
  = (Raised (GrException "FileNotFoundError"), None) /\
  DownloadButton.preprocess demo_NamedTemporaryFile
    (DownloadButton.postprocess (Some "report.pdf")) (Some 3)
  = (Returned (Some "report.pdf"), Some 4) /\
  DownloadButton.preprocess demo_NamedTemporaryFile
    (DownloadButton.postprocess None) (Some 3)
  = (Returned None, Some 3).
Proof. repeat split. Qed.
